(** * k6 HTTP module: the Response entity (js/modules/k6/http/response.go)

    A shallow embedding of [Response.JSON], [Response.HTML],
    [Response.SubmitForm] and [Response.ClickLink].

    The Go code talks to five collaborators that live outside response.go:
    the goja script runtime, encoding/json together with gjson, the k6 html
    package, net/url together with strings, and the request issuer of the
    http package.  Each of them is an interface here (a type class); the
    four methods are written once against the interfaces, so every theorem
    about them holds for whatever implementation is plugged in.  Concrete
    implementations (module [Double], module [GoURL]) are used to run the
    methods on explicit inputs. *)

From Stdlib Require Import Strings.String Strings.Ascii Strings.Byte List Bool Arith Lia.
From stdpp Require Import base option list strings pretty gmap fin_maps.

Open Scope string_scope.

(** ** Go values shared by all collaborators *)

(** A Go [error] value.  [errors.New] and [fmt.Errorf] build an
    [errorString]; errors coming out of another package keep the package
    name and their message. *)
Inductive error : Type :=
  | errorString (msg : string)
  | foreignError (pkg msg : string).

Global Instance error_eq_dec : EqDecision error.
Proof. solve_decision. Defined.

(** [errors.New] *)
Definition errors_New (msg : string) : error := errorString msg.

(** A Go function result [(T, error)]. *)
Inductive result (A : Type) : Type :=
  | Ok (a : A)
  | Err (e : error).
Arguments Ok {A} a.
Arguments Err {A} e.

(** What a method call on a Response does, as the script sees it: it
    returns, or [common.Throw] panics with a Go error. *)
Inductive outcome (A : Type) : Type :=
  | Return (a : A)
  | Throw (e : error).
Arguments Return {A} a.
Arguments Throw {A} e.

(** [Response.Body] has static type [interface{}]: a byte slice, a string,
    or anything else (the nil interface included). *)
Inductive GoBody : Type :=
  | BodyBytes (b : list byte)
  | BodyString (s : string)
  | BodyNil
  | BodyOther (dynamicType : string).

(** The two type switches on [res.Body]: [JSON] wants [[]byte], [HTML]
    wants [string]; the [default] arm is [None]. *)
Definition bodyAsBytes (b : GoBody) : option (list byte) :=
  match b with
  | BodyBytes b => Some b
  | BodyString s => Some (list_byte_of_string s)
  | BodyNil | BodyOther _ => None
  end.

Definition bodyAsString (b : GoBody) : option string :=
  match b with
  | BodyBytes b => Some (string_of_list_byte b)
  | BodyString s => Some s
  | BodyNil | BodyOther _ => None
  end.

(** [outcome] is the error monad of the script step: a [Throw] ends it. *)
Global Instance outcome_ret : MRet outcome := λ A a, Return a.
Global Instance outcome_bind : MBind outcome :=
  λ A B f m, match m with Return a => f a | Throw e => Throw e end.

(** [if err != nil { common.Throw(rt, err) }] *)
Definition throwOnErr {A : Type} (r : result A) : outcome A :=
  match r with Ok a => Return a | Err e => Throw e end.

(** [fmt.Errorf] at the two-argument format strings of response.go, each
    of the shape [prefix '%s' in response '%s']. *)
Definition fmt_Errorf2 (prefix arg1 arg2 : string) : error :=
  errorString (prefix ++ "'" ++ arg1 ++ "' in response '" ++ arg2 ++ "'").

(** The error kinds of the specification that response.go builds itself.
    [MalformedJSON] and [MalformedURL] are whatever error
    [json.Unmarshal] and [url.Parse] return. *)
Definition InvalidBodyType : error := errors_New "invalid response type".
Definition FormNotFound (selector url : string) : error :=
  fmt_Errorf2 "no form found for selector " selector url.
Definition ElementNotFound (selector url : string) : error :=
  fmt_Errorf2 "no element found for selector " selector url.
Definition MissingHrefAttribute (selector url : string) : error :=
  fmt_Errorf2 "no valid href attribute value found on element " selector url.

(** The body shapes the accessors accept. *)
Definition bytesOrString (b : GoBody) : bool :=
  match b with
  | BodyBytes _ | BodyString _ => true
  | BodyNil | BodyOther _ => false
  end.

(** ** Collaborator interfaces *)

(** goja: script values.  [Value] stands for a non-nil [goja.Value];
    a nil interface is [None] of [option Value].  [Any] is a Go
    [interface{}] holding decoded JSON, which [Runtime.ToValue] turns into
    a script value; the other two [ToValue_] functions are [ToValue] at a
    Go string and at a [map[string]goja.Value]. *)
Class Runtime : Type := {
  Value : Type;
  Value_eq_dec :: EqDecision Value;
  Undefined : Value;
  Null : Value;
  Value_String : Value → string;
  Any : Type;
  ToValue : Any → Value;
  ToValue_string : string → Value;
  ToValue_values : gmap string Value → Value;
  Object : Type;
  ToObject : Value → result Object;
  Object_Keys : Object → list string;
  Object_Get : Object → string → Value;
  ExportTo_fields : Value → result (gmap string Value)
}.

(** encoding/json and tidwall/gjson. *)
Class JSONLib `{Runtime} : Type := {
  json_Unmarshal : list byte → result Any;
  gjson_ValidBytes : list byte → bool;
  gjson_Result : Type;
  gjson_GetBytes : list byte → string → gjson_Result;
  Result_Exists : gjson_Result → bool;
  Result_Value : gjson_Result → Any
}.

(** Modelled from the spec: the k6 html package (js/modules/k6/html) is not
    part of the sources at hand.  Section 6 of the specification gives its
    contract: [parse(markup) -> selection], and on a selection
    [find(selector)], [attr(name) -> value|undefined],
    [value() -> value|undefined], [size() -> integer] and
    [serializeFormFields() -> mapping].  [Selection_setURL] is the
    assignment [sel.URL = res.URL]. *)
Class HTMLEngine `{Runtime} : Type := {
  Selection : Type;
  ParseHTML : string → result Selection;
  Selection_setURL : Selection → string → Selection;
  Selection_Find : Selection → string → Selection;
  Selection_Size : Selection → nat;
  Selection_Attr : Selection → string → Value;
  Selection_Val : Selection → Value;
  Selection_SerializeObject : Selection → gmap string Value
}.

(** [url.URL], with the fields response.go and the resolution rules use. *)
Record url_URL : Type := mkURL {
  Scheme : string;
  Opaque : string;
  Host : string;
  Path : string;
  ForceQuery : bool;
  RawQuery : string;
  Fragment : string
}.

Global Instance URL_eq_dec : EqDecision url_URL.
Proof. solve_decision. Defined.

(** [requestURL.RawQuery = q] *)
Definition URL_setRawQuery (u : url_URL) (q : string) : url_URL :=
  mkURL (Scheme u) (Opaque u) (Host u) (Path u) (ForceQuery u) q (Fragment u).

(** [url.Values] is [map[string][]string], here [gmap string (list string)].
    [Values.Add] is [v[key] = append(v[key], value)]. *)
Definition Values_Add (q : gmap string (list string)) (key value : string)
    : gmap string (list string) :=
  <[key := (default [] (q !! key) ++ [value])%list]> q.

(** net/url and strings. *)
Class GoLib : Type := {
  url_Parse : string → result url_URL;
  URL_ResolveReference : url_URL → url_URL → url_URL;
  URL_String : url_URL → string;
  Values_Encode : gmap string (list string) → string;
  strings_ToUpper : string → string
}.

(** The request issuer: [New().Request(ctx, method, url, body, params)] and
    [New().Get(ctx, url, params)].  [Reply] is the pair
    of a new Response and an error that they hand back. *)
Class Issuer `{Runtime} : Type := {
  Reply : Type;
  HTTP_Request : string → Value → Value → Value → Reply;
  HTTP_Get : Value → Value → Reply
}.

(** Modelled from the spec: the constant [HTTP_METHOD_GET] is declared in
    another file of the http package; the specification calls it GET. *)
Definition HTTP_METHOD_GET : string := "GET".

(** ** The Response entity *)

Section ResponseModel.
Context `{RT : Runtime}.

(** The fields of [Response] the four methods read or write.  The
    remaining ones (remote address, status, headers, cookies, timings,
    TLS labels, error string, request) are plain data no method here
    touches. *)
Record Response : Type := mkResponse {
  URL : string;
  Body : GoBody;
  cachedJSON : option Value;
  validatedJSON : bool
}.

(** [res.validatedJSON = true] *)
Definition set_validatedJSON (res : Response) : Response :=
  mkResponse (URL res) (Body res) (cachedJSON res) true.

(** [res.cachedJSON = c] *)
Definition set_cachedJSON (res : Response) (c : Value) : Response :=
  mkResponse (URL res) (Body res) (Some c) (validatedJSON res).

(** A response as the executor hands it over: both lazy fields hold
    their zero value. *)
Definition newResponse (url : string) (body : GoBody) : Response :=
  mkResponse url body None false.

(** Calls into the JSON libraries, recorded in call order: the probe
    that makes parsing observable. *)
Inductive Event : Type :=
  | EvValidBytes (body : list byte)
  | EvGetBytes (body : list byte) (path : string)
  | EvUnmarshal (body : list byte).

Definition isUnmarshal (e : Event) : bool :=
  match e with EvUnmarshal _ => true | _ => false end.

(** Number of [json.Unmarshal] calls in a trace. *)
Definition parses (t : list Event) : nat := length (filter isUnmarshal t).

(** Result of running a method that may write the lazy fields: what the
    caller gets, the response afterwards, the library calls made. *)
Record Run (A : Type) : Type := mkRun {
  out : outcome A;
  after : Response;
  trace : list Event
}.
Arguments mkRun {A} out after trace.
Arguments out {A} r.
Arguments after {A} r.
Arguments trace {A} r.

Context `{JL : !JSONLib}.

(** The selector branch of [JSON] after validation:
    [result := gjson.GetBytes(body, selector[0])] and the two returns
    that follow. *)
Definition JSON_select (body : list byte) (sel0 : string)
    (res : Response) (t : list Event) : Run Value :=
  let result := gjson_GetBytes body sel0 in
  if negb (Result_Exists result)
  then mkRun (Return Undefined) res (t ++ [EvGetBytes body sel0])
  else mkRun (Return (ToValue (Result_Value result))) res
             (t ++ [EvGetBytes body sel0]).

(** [func (res *Response) JSON(selector ...string) goja.Value] *)
Definition JSON (selector : list string) (res : Response) : Run Value :=
  match cachedJSON res, selector with
  | Some c, [] =>
      (* cachedJSON != nil and no selector: skip the block *)
      mkRun (Return c) res []
  | _, _ =>
      match bodyAsBytes (Body res) with
      | None => mkRun (Throw InvalidBodyType) res []
      | Some body =>
          match selector with
          | sel0 :: _ =>
              if negb (validatedJSON res) then
                if negb (gjson_ValidBytes body)
                then mkRun (Return Undefined) res [EvValidBytes body]
                else JSON_select body sel0 (set_validatedJSON res)
                                 [EvValidBytes body]
              else JSON_select body sel0 res []
          | [] =>
              match json_Unmarshal body with
              | Err e => mkRun (Throw e) res [EvUnmarshal body]
              | Ok v =>
                  let res1 := set_validatedJSON res in
                  let res2 := set_cachedJSON res1 (ToValue v) in
                  mkRun (Return (ToValue v)) res2 [EvUnmarshal body]
              end
          end
      end
  end.

(** A script's successive [JSON] calls on one response, each call
    starting from the response the previous one left.  (A script may
    catch what a call throws and go on, so the run continues after a
    [Throw].) *)
Fixpoint JSON_calls (calls : list (list string)) (res : Response)
    : list (Run Value) :=
  match calls with
  | [] => []
  | selector :: rest =>
      let r := JSON selector res in r :: JSON_calls rest (after r)
  end.

(** The responses a script can hold: [res0] and whatever [JSON] calls
    turn it into.  No other method writes a field. *)
Inductive reachable_from (res0 : Response) : Response → Prop :=
  | reach_start : reachable_from res0 res0
  | reach_JSON selector res :
      reachable_from res0 res →
      reachable_from res0 (after (JSON selector res)).

(** The same response with another content of the parsed-JSON cache. *)
Definition withCache (c : option Value) (res : Response) : Response :=
  mkResponse (URL res) (Body res) c (validatedJSON res).

(** What holds of every response a script can hold: the body is the one
    it was built with, a filled cache implies a set flag, and a set flag
    implies that the validator or the decoder accepted the body. *)
Definition flag_truthful (body : GoBody) (res : Response) : Prop :=
  Body res = body
  ∧ (cachedJSON res ≠ None → validatedJSON res = true)
  ∧ (validatedJSON res = true →
     ∃ bytes, bodyAsBytes body = Some bytes
              ∧ (gjson_ValidBytes bytes = true
                 ∨ ∃ v, json_Unmarshal bytes = Ok v)).

(** Number of [gjson.ValidBytes] calls in a trace. *)
Definition isValidBytes (e : Event) : bool :=
  match e with EvValidBytes _ => true | _ => false end.

Definition validations (t : list Event) : nat :=
  length (filter isValidBytes t).

(** Number of calls without selector in a script's list of calls. *)
Definition fullCalls (calls : list (list string)) : nat :=
  length (filter (λ selector, bool_decide (selector = [])) calls).

(** The same response holding another body. *)
Definition withBody (b : GoBody) (res : Response) : Response :=
  mkResponse (URL res) b (cachedJSON res) (validatedJSON res).

(** What [JSON] without selector yields when it has to decode: a
    function of the body alone. *)
Definition decodeBody (body : GoBody) : outcome Value :=
  match bodyAsBytes body with
  | None => Throw InvalidBodyType
  | Some bytes =>
      match json_Unmarshal bytes with
      | Ok v => Return (ToValue v)
      | Err e => Throw e
      end
  end.

(** The cache invariant: in every response a script can hold, a filled
    cache holds the decoding of the body. *)
Definition cache_sound (body : GoBody) (res : Response) : Prop :=
  Body res = body
  ∧ ∀ c, cachedJSON res = Some c →
         validatedJSON res = true
         ∧ ∃ bytes v, bodyAsBytes body = Some bytes
                      ∧ json_Unmarshal bytes = Ok v ∧ c = ToValue v.

Context `{HE : !HTMLEngine}.

(** [func (res *Response) HTML(selector ...string) html.Selection];
    it writes no field of the response. *)
Definition HTML (selector : list string) (res : Response)
    : outcome Selection :=
  match bodyAsString (Body res) with
  | None => Throw InvalidBodyType
  | Some body =>
      match ParseHTML body with
      | Err e => Throw e
      | Ok sel =>
          let sel := Selection_setURL sel (URL res) in
          match selector with
          | sel0 :: _ => Return (Selection_Find sel sel0)
          | [] => Return sel
          end
      end
  end.

Context `{GL : GoLib} `{IS : !Issuer}.

(** *** SubmitForm *)

(** The locals [formSelector], [submitSelector], [fields] and
    [requestParams] of [SubmitForm]. *)
Record SubmitFormOptions : Type := mkSubmitFormOptions {
  formSelector : string;
  submitSelector : string;
  fields : gmap string Value;
  requestParams : Value
}.

(** Their initial values; [fields] starts as the nil map. *)
Definition submitFormDefaults : SubmitFormOptions :=
  mkSubmitFormOptions
    "form"
    ("[type=" ++ String "034"%char "submit" ++ String "034"%char "]")
    ∅
    Null.

(** One round of [for _, k := range params.Keys() { switch k {...} }]. *)
Definition submitFormOption (params : Object) (o : SubmitFormOptions)
    (k : string) : SubmitFormOptions :=
  if decide (k = "formSelector") then
    mkSubmitFormOptions (Value_String (Object_Get params k))
      (submitSelector o) (fields o) (requestParams o)
  else if decide (k = "submitSelector") then
    mkSubmitFormOptions (formSelector o)
      (Value_String (Object_Get params k)) (fields o) (requestParams o)
  else if decide (k = "fields") then
    mkSubmitFormOptions (formSelector o) (submitSelector o)
      (match ExportTo_fields (Object_Get params k) with
       | Ok f => f
       | Err _ => ∅
       end)
      (requestParams o)
  else if decide (k = "params") then
    mkSubmitFormOptions (formSelector o) (submitSelector o) (fields o)
      (Object_Get params k)
  else o.

(** [if len(args) > 0 { params := args[0].ToObject(rt); ... }] *)
Definition submitFormArgs (args : list Value) : outcome SubmitFormOptions :=
  match args with
  | [] => Return submitFormDefaults
  | a :: _ =>
      params ← throwOnErr (ToObject a);
      Return (fold_left (submitFormOption params) (Object_Keys params)
                        submitFormDefaults)
  end.

(** [requestMethod]: lines 178 to 185. *)
Definition formMethod (form : Selection) : string :=
  let methodAttr := Selection_Attr form "method" in
  if decide (methodAttr = Undefined)
  then HTTP_METHOD_GET
  else strings_ToUpper (Value_String methodAttr).

(** [requestURL]: lines 192 to 203. *)
Definition formTarget (responseURL : url_URL) (form : Selection)
    : result url_URL :=
  let actionAttr := Selection_Attr form "action" in
  if decide (actionAttr = Undefined)
  then Ok responseURL
  else
    match url_Parse (Value_String actionAttr) with
    | Err e => Err e
    | Ok actionURL => Ok (URL_ResolveReference responseURL actionURL)
    end.

(** [values[k] = v] for every entry of [src]. *)
Definition assignAll (src dst : gmap string Value) : gmap string Value :=
  map_fold (λ k v acc, <[k := v]> acc) dst src.

(** [values]: lines 205 to 219. *)
Definition formValues (form : Selection) (submitSel : string)
    (flds : gmap string Value) : gmap string Value :=
  let values := Selection_SerializeObject form in
  let submit := Selection_Find form submitSel in
  let submitName := Selection_Attr submit "name" in
  let submitValue := Selection_Val submit in
  let values :=
    if decide (submitName ≠ Undefined ∧ submitValue ≠ Undefined)
    then <[Value_String submitName := submitValue]> values
    else values in
  assignAll flds values.

(** [q := url.Values{}; for k, v := range values { q.Add(k, v.String()) }] *)
Definition formQuery (values : gmap string Value)
    : gmap string (list string) :=
  map_fold (λ k v q, Values_Add q k (Value_String v)) ∅ values.

(** [func (res *Response) SubmitForm(args ...goja.Value)] *)
Definition SubmitForm (args : list Value) (res : Response)
    : outcome Reply :=
  o ← submitFormArgs args;
  form ← HTML [formSelector o] res;
  if decide (Selection_Size form = 0) then
    Throw (FormNotFound (formSelector o) (URL res))
  else
    let requestMethod := formMethod form in
    responseURL ← throwOnErr (url_Parse (URL res));
    requestURL ← throwOnErr (formTarget responseURL form);
    let values := formValues form (submitSelector o) (fields o) in
    if decide (requestMethod = HTTP_METHOD_GET) then
      let q := formQuery values in
      let requestURL := URL_setRawQuery requestURL (Values_Encode q) in
      Return (HTTP_Request requestMethod
                (ToValue_string (URL_String requestURL))
                Null (requestParams o))
    else
      Return (HTTP_Request requestMethod
                (ToValue_string (URL_String requestURL))
                (ToValue_values values) (requestParams o)).

(** *** ClickLink *)

(** The locals [selector] and [requestParams] of [ClickLink]. *)
Record ClickLinkOptions : Type := mkClickLinkOptions {
  linkSelector : string;
  linkParams : Value
}.

Definition clickLinkDefaults : ClickLinkOptions :=
  mkClickLinkOptions "a[href]" Null.

Definition clickLinkOption (params : Object) (o : ClickLinkOptions)
    (k : string) : ClickLinkOptions :=
  if decide (k = "selector") then
    mkClickLinkOptions (Value_String (Object_Get params k)) (linkParams o)
  else if decide (k = "params") then
    mkClickLinkOptions (linkSelector o) (Object_Get params k)
  else o.

Definition clickLinkArgs (args : list Value) : outcome ClickLinkOptions :=
  match args with
  | [] => Return clickLinkDefaults
  | a :: _ =>
      params ← throwOnErr (ToObject a);
      Return (fold_left (clickLinkOption params) (Object_Keys params)
                        clickLinkDefaults)
  end.

(** [func (res *Response) ClickLink(args ...goja.Value)] *)
Definition ClickLink (args : list Value) (res : Response)
    : outcome Reply :=
  o ← clickLinkArgs args;
  responseURL ← throwOnErr (url_Parse (URL res));
  link ← HTML [linkSelector o] res;
  if decide (Selection_Size link = 0) then
    Throw (ElementNotFound (linkSelector o) (URL res))
  else
    let hrefAttr := Selection_Attr link "href" in
    if decide (hrefAttr = Undefined) then
      Throw (MissingHrefAttribute (linkSelector o) (URL res))
    else
      hrefURL ← throwOnErr (url_Parse (Value_String hrefAttr));
      let requestURL := URL_ResolveReference responseURL hrefURL in
      Return (HTTP_Get (ToValue_string (URL_String requestURL))
                       (linkParams o)).

End ResponseModel.

Arguments mkRun {RT A} out after trace.
Arguments out {RT A} r.
Arguments after {RT A} r.
Arguments trace {RT A} r.

(** ** net/url and strings, written out

    Go's standard library is not part of the repository.  To run
    [SubmitForm] and [ClickLink] on explicit URLs this module writes down
    [url.Parse], [URL.ResolveReference], [URL.String], [Values.Encode] and
    [strings.ToUpper] as the Go releases of the time of response.go define
    them (the reference resolution of RFC 3986, section 5.2, with dot
    segments removed by the split and join loop of [resolvePath]).
    Left out: user information (an authority is kept whole in [Host]),
    decoding of percent-escapes ([Path] keeps the escaped text, which is
    what [EscapedPath] gives back for it), host and port checks, and
    letters outside ASCII in the case mappings. *)
Module GoURL.

Definition between (lo hi : nat) (c : ascii) : bool :=
  Nat.leb lo (nat_of_ascii c) && Nat.leb (nat_of_ascii c) hi.

Definition isLower (c : ascii) : bool := between 97 122 c.
Definition isUpper (c : ascii) : bool := between 65 90 c.
Definition isDigit (c : ascii) : bool := between 48 57 c.
Definition isHex (c : ascii) : bool :=
  isDigit c || between 97 102 c || between 65 70 c.

Definition mapBytes (f : ascii → ascii) : string → string :=
  fix go (s : string) : string :=
    match s with
    | EmptyString => EmptyString
    | String c r => String (f c) (go r)
    end.

(** [strings.ToUpper] and [strings.ToLower] *)
Definition ToUpper : string → string :=
  mapBytes (λ c, if isLower c then ascii_of_nat (nat_of_ascii c - 32) else c).
Definition ToLower : string → string :=
  mapBytes (λ c, if isUpper c then ascii_of_nat (nat_of_ascii c + 32) else c).

(** [split(s, c, cutc)] of url.go: cut [s] at the first [c]. *)
Fixpoint split (s : string) (c : ascii) (cutc : bool) : string * string :=
  match s with
  | EmptyString => (EmptyString, EmptyString)
  | String a r =>
      if decide (a = c) then (EmptyString, if cutc then r else s)
      else let '(x, y) := split r c cutc in (String a x, y)
  end.

(** [strings.IndexByte(s, c) >= 0] *)
Fixpoint contains (c : ascii) (s : string) : bool :=
  match s with
  | EmptyString => false
  | String a r => if decide (a = c) then true else contains c r
  end.

(** [getscheme]: [i] counts the bytes already read. *)
Fixpoint getscheme_at (i : nat) (rawurl rest : string)
    : result (string * string) :=
  match rest with
  | EmptyString => Ok (EmptyString, rawurl)
  | String c r =>
      if isLower c || isUpper c then getscheme_at (S i) rawurl r
      else if isDigit c || bool_decide (c = "+"%char)
              || bool_decide (c = "-"%char) || bool_decide (c = "."%char)
      then (if Nat.eqb i 0 then Ok (EmptyString, rawurl)
            else getscheme_at (S i) rawurl r)
      else if bool_decide (c = ":"%char)
      then (if Nat.eqb i 0
            then Err (foreignError "net/url" "missing protocol scheme")
            else Ok (substring 0 i rawurl, r))
      else Ok (EmptyString, rawurl)
  end.

Definition getscheme (rawurl : string) : result (string * string) :=
  getscheme_at 0 rawurl rawurl.

(** The check [unescape] makes: every percent sign is followed by two
    hexadecimal digits. *)
Fixpoint validEscapes (s : string) : bool :=
  match s with
  | EmptyString => true
  | String c r =>
      if bool_decide (c = "%"%char) then
        match r with
        | String h1 (String h2 r') => isHex h1 && isHex h2 && validEscapes r'
        | _ => false
        end
      else validEscapes r
  end.

Definition emptyURL : url_URL :=
  mkURL EmptyString EmptyString EmptyString EmptyString false
        EmptyString EmptyString.

(** [parse(rawurl, false)] *)
Definition parse (rawurl : string) : result url_URL :=
  if decide (rawurl = "*") then
    Ok (mkURL EmptyString EmptyString EmptyString "*" false
              EmptyString EmptyString)
  else
    match getscheme rawurl with
    | Err e => Err e
    | Ok (scheme, rest) =>
        let scheme := ToLower scheme in
        let '(rest, force, query) :=
          match split rest "?" true with
          | (r, EmptyString) =>
              (r, bool_decide (rest = r ++ "?"), EmptyString)
          | (r, q) => (r, false, q)
          end in
        if negb (String.prefix "/" rest) && negb (bool_decide (scheme = EmptyString))
        then Ok (mkURL scheme rest EmptyString EmptyString force
                       query EmptyString)
        else if negb (String.prefix "/" rest)
                && contains ":" (fst (split rest "/" true))
        then Err (foreignError "net/url"
                    "first path segment in URL cannot contain colon")
        else
          let '(host, rest) :=
            if String.prefix "//" rest
               && (negb (bool_decide (scheme = EmptyString))
                   || negb (String.prefix "///" rest))
            then split (substring 2 (String.length rest) rest) "/" false
            else (EmptyString, rest) in
          if validEscapes rest
          then Ok (mkURL scheme EmptyString host rest force
                         query EmptyString)
          else Err (foreignError "net/url" "invalid URL escape")
    end.

(** [url.Parse] *)
Definition Parse (rawurl : string) : result url_URL :=
  let '(u, frag) := split rawurl "#" true in
  match parse u with
  | Err e => Err e
  | Ok url =>
      if validEscapes frag
      then Ok (mkURL (Scheme url) (Opaque url) (Host url) (Path url)
                     (ForceQuery url) (RawQuery url) frag)
      else Err (foreignError "net/url" "invalid URL escape")
  end.

(** [strings.Split(s, "/")] *)
Fixpoint Split (s : string) : list string :=
  match s with
  | EmptyString => [EmptyString]
  | String c r =>
      if bool_decide (c = "/"%char) then EmptyString :: Split r
      else match Split r with
           | x :: xs => String c x :: xs
           | [] => [String c EmptyString]
           end
  end.

(** [strings.TrimLeft(s, "/")] *)
Fixpoint TrimLeft (s : string) : string :=
  match s with
  | String c r => if bool_decide (c = "/"%char) then TrimLeft r else s
  | EmptyString => EmptyString
  end.

(** [base[:strings.LastIndex(base, "/")+1]] *)
Fixpoint throughLastSlash (base : string) : string :=
  match base with
  | EmptyString => EmptyString
  | String c r =>
      match throughLastSlash r with
      | EmptyString =>
          if bool_decide (c = "/"%char) then "/" else EmptyString
      | t => String c t
      end
  end.

(** One round of the loop over the path elements in [resolvePath]. *)
Definition dotStep (dst : list string) (elem : string) : list string :=
  if decide (elem = ".") then dst
  else if decide (elem = "..") then removelast dst
  else (dst ++ [elem])%list.

(** [resolvePath(base, ref)] *)
Definition resolvePath (base ref : string) : string :=
  let full :=
    match ref with
    | EmptyString => base
    | String c _ =>
        if bool_decide (c = "/"%char) then ref
        else throughLastSlash base ++ ref
    end in
  if decide (full = EmptyString) then EmptyString
  else
    let src := Split full in
    let dst := fold_left dotStep src [] in
    let last := List.last src EmptyString in
    let dst :=
      if bool_decide (last = ".") || bool_decide (last = "..")
      then (dst ++ [EmptyString])%list else dst in
    "/" ++ TrimLeft (String.concat "/" dst).

Definition setPath (u : url_URL) (p : string) : url_URL :=
  mkURL (Scheme u) (Opaque u) (Host u) p (ForceQuery u) (RawQuery u)
        (Fragment u).

(** [func (u *URL) ResolveReference(ref *URL) *URL] *)
Definition ResolveReference (u ref : url_URL) : url_URL :=
  let scheme :=
    if decide (Scheme ref = EmptyString) then Scheme u else Scheme ref in
  if negb (bool_decide (Scheme ref = EmptyString))
     || negb (bool_decide (Host ref = EmptyString))
  then mkURL scheme (Opaque ref) (Host ref)
             (resolvePath (Path ref) EmptyString)
             (ForceQuery ref) (RawQuery ref) (Fragment ref)
  else if negb (bool_decide (Opaque ref = EmptyString))
  then mkURL scheme (Opaque ref) EmptyString EmptyString
             (ForceQuery ref) (RawQuery ref) (Fragment ref)
  else
    let inherit :=
      bool_decide (Path ref = EmptyString)
      && bool_decide (RawQuery ref = EmptyString) in
    mkURL scheme (Opaque ref) (Host u)
          (resolvePath (Path u) (Path ref))
          (ForceQuery ref)
          (if inherit then RawQuery u else RawQuery ref)
          (if inherit && bool_decide (Fragment ref = EmptyString)
           then Fragment u else Fragment ref).

(** [func (u *URL) String() string] *)
Definition URLString (u : url_URL) : string :=
  let scheme :=
    if decide (Scheme u = EmptyString) then EmptyString
    else Scheme u ++ ":" in
  let body :=
    if negb (bool_decide (Opaque u = EmptyString)) then Opaque u
    else
      let authority :=
        if negb (bool_decide (Scheme u = EmptyString))
           || negb (bool_decide (Host u = EmptyString))
        then (if negb (bool_decide (Host u = EmptyString))
                 || negb (bool_decide (Path u = EmptyString))
              then "//" else EmptyString) ++ Host u
        else EmptyString in
      let slash :=
        if negb (bool_decide (Path u = EmptyString))
           && negb (String.prefix "/" (Path u))
           && negb (bool_decide (Host u = EmptyString))
        then "/" else EmptyString in
      let dotSlash :=
        if bool_decide (scheme ++ authority ++ slash = EmptyString)
           && contains ":" (fst (split (Path u) "/" true))
        then "./" else EmptyString in
      authority ++ slash ++ dotSlash ++ Path u in
  let query :=
    if ForceQuery u || negb (bool_decide (RawQuery u = EmptyString))
    then "?" ++ RawQuery u else EmptyString in
  let fragment :=
    if negb (bool_decide (Fragment u = EmptyString))
    then "#" ++ Fragment u else EmptyString in
  scheme ++ body ++ query ++ fragment.

(** [shouldEscape(c, encodeQueryComponent)] is false on letters, digits
    and the four marks below. *)
Definition unreserved (c : ascii) : bool :=
  isLower c || isUpper c || isDigit c || bool_decide (c = "-"%char)
  || bool_decide (c = "_"%char) || bool_decide (c = "."%char)
  || bool_decide (c = "~"%char).

Definition hexDigit (n : nat) : ascii :=
  if Nat.ltb n 10 then ascii_of_nat (48 + n) else ascii_of_nat (55 + n).

(** [url.QueryEscape] *)
Fixpoint QueryEscape (s : string) : string :=
  match s with
  | EmptyString => EmptyString
  | String c r =>
      if unreserved c then String c (QueryEscape r)
      else if bool_decide (c = " "%char) then String "+" (QueryEscape r)
      else String "%" (String (hexDigit (nat_of_ascii c / 16))
                         (String (hexDigit (nat_of_ascii c mod 16))
                            (QueryEscape r)))
  end.

(** [sort.Strings] *)
Fixpoint insertSorted (k : string) (l : list string) : list string :=
  match l with
  | [] => [k]
  | x :: xs => if String.leb k x then k :: l else x :: insertSorted k xs
  end.

Definition sortStrings (l : list string) : list string :=
  fold_right insertSorted [] l.

(** [func (v Values) Encode() string] *)
Definition Encode (v : gmap string (list string)) : string :=
  let keys := sortStrings (map fst (map_to_list v)) in
  String.concat "&"
    (flat_map
       (λ k, map (λ x, QueryEscape k ++ "=" ++ QueryEscape x)
                 (default [] (v !! k)))
       keys).

Global Instance lib : GoLib := {|
  url_Parse := Parse;
  URL_ResolveReference := ResolveReference;
  URL_String := URLString;
  Values_Encode := Encode;
  strings_ToUpper := ToUpper
|}.

End GoURL.

(** ** Test doubles for the remaining collaborators

    Small executable stand-ins for goja, the JSON libraries, the html
    package and the request issuer, in the manner of the test doubles the
    specification speaks of.  They only serve to run the methods on
    explicit inputs. *)
Module Double.

(** Script values: scalars and objects. *)
#[local] Set Warnings "-register-all".
Inductive jsValue : Type :=
  | jsUndefined
  | jsNull
  | jsBool (b : bool)
  | jsNumber (n : Z)
  | jsString (s : string)
  | jsObject (props : list (string * jsValue)).

Fixpoint jsValue_eq_dec (x y : jsValue) {struct x} : {x = y} + {x ≠ y}.
Proof.
  decide equality.
  - apply bool_dec.
  - apply Z.eq_dec.
  - apply string_dec.
  - apply List.list_eq_dec. intros p q.
    decide equality; first [apply jsValue_eq_dec | apply string_dec].
Defined.

Definition lookupProp (k : string) (props : list (string * jsValue))
    : jsValue :=
  match find (λ p, bool_decide (fst p = k)) props with
  | Some p => snd p
  | None => jsUndefined
  end.

(** [toString] of a script value. *)
Definition jsToString (v : jsValue) : string :=
  match v with
  | jsUndefined => "undefined"
  | jsNull => "null"
  | jsBool true => "true"
  | jsBool false => "false"
  | jsNumber n => pretty n
  | jsString s => s
  | jsObject _ => "[object Object]"
  end.

Global Instance runtime : Runtime := {|
  Value := jsValue;
  Value_eq_dec := jsValue_eq_dec;
  Undefined := jsUndefined;
  Null := jsNull;
  Value_String := jsToString;
  Any := jsValue;
  ToValue := λ v, v;
  ToValue_string := jsString;
  ToValue_values := λ m, jsObject (map_to_list m);
  Object := list (string * jsValue);
  ToObject := λ v,
    match v with
    | jsUndefined | jsNull =>
        Err (foreignError "goja" "TypeError: Cannot convert undefined or null to object")
    | jsObject props => Ok props
    | _ => Ok []
    end;
  Object_Keys := map fst;
  Object_Get := λ o k, lookupProp k o;
  ExportTo_fields := λ v,
    match v with
    | jsObject props => Ok (list_to_map props)
    | _ => Err (foreignError "goja" "TypeError: could not convert to map")
    end
|}.

(** *** JSON: scalars and flat objects, no white space

    Every text the double accepts is JSON; it accepts [null], [true],
    [false], integers, strings without escapes, and objects whose
    members are such scalars.  The validator and the decoder accept the
    same texts. *)

Fixpoint digitsValue (acc : Z) (s : string) : option Z :=
  match s with
  | EmptyString => Some acc
  | String c r =>
      if GoURL.isDigit c
      then digitsValue (10 * acc + Z.of_nat (nat_of_ascii c - 48)) r
      else None
  end.

Definition parseNatural (s : string) : option Z :=
  match s with
  | EmptyString => None
  | String "0" (String _ _) => None
  | _ => digitsValue 0 s
  end.

Definition parseNumber (s : string) : option Z :=
  match s with
  | String "-" r => Z.opp <$> parseNatural r
  | _ => parseNatural s
  end.

(** The characters of a string up to its closing quote, which must be
    the last character. *)
Fixpoint stringBody (s : string) : option string :=
  match s with
  | EmptyString => None
  | String c r =>
      if bool_decide (c = "034"%char)
      then (if bool_decide (r = EmptyString) then Some EmptyString else None)
      else if bool_decide (c = "092"%char) || Nat.ltb (nat_of_ascii c) 32
      then None
      else String c <$> stringBody r
  end.

Definition parseString (s : string) : option string :=
  match s with
  | String c r => if bool_decide (c = "034"%char) then stringBody r else None
  | EmptyString => None
  end.

Definition parseScalar (s : string) : option jsValue :=
  if bool_decide (s = "null") then Some jsNull
  else if bool_decide (s = "true") then Some (jsBool true)
  else if bool_decide (s = "false") then Some (jsBool false)
  else match parseNumber s with
       | Some n => Some (jsNumber n)
       | None => jsString <$> parseString s
       end.

Fixpoint splitOn (sep : ascii) (s : string) : list string :=
  match s with
  | EmptyString => [EmptyString]
  | String c r =>
      if bool_decide (c = sep) then EmptyString :: splitOn sep r
      else match splitOn sep r with
           | x :: xs => String c x :: xs
           | [] => [String c EmptyString]
           end
  end.

Definition parseMember (s : string) : option (string * jsValue) :=
  let '(k, v) := GoURL.split s ":" true in
  key ← parseString k;
  val ← parseScalar v;
  Some (key, val).

Definition parseMembers (s : string) : option (list (string * jsValue)) :=
  if bool_decide (s = EmptyString) then Some []
  else mapM parseMember (splitOn "," s).

Definition parseJSON (s : string) : option jsValue :=
  match s with
  | String "{" r =>
      match GoURL.split r "}" true with
      | (members, EmptyString) =>
          if bool_decide (r = members ++ "}")
          then jsObject <$> parseMembers members
          else None
      | _ => None
      end
  | _ => parseScalar s
  end.

Definition getPath (doc : option jsValue) (path : string) : option jsValue :=
  match doc with
  | Some (jsObject props) =>
      snd <$> find (λ p, bool_decide (fst p = path)) props
  | _ => None
  end.

Global Instance json : JSONLib := {|
  json_Unmarshal := λ body,
    match parseJSON (string_of_list_byte body) with
    | Some v => Ok v
    | None => Err (foreignError "encoding/json" "invalid character")
    end;
  gjson_ValidBytes := λ body,
    bool_decide (is_Some (parseJSON (string_of_list_byte body)));
  gjson_Result := option jsValue;
  gjson_GetBytes := λ body path,
    getPath (parseJSON (string_of_list_byte body)) path;
  Result_Exists := λ r, bool_decide (is_Some r);
  Result_Value := default jsNull
|}.

(** *** HTML: element trees and a corpus of known pages *)

Inductive node : Type :=
  | Node (tag : string) (attrs : list (string * string)) (kids : list node).

Definition tagOf (n : node) : string :=
  match n with Node tag _ _ => tag end.
Definition attrsOf (n : node) : list (string * string) :=
  match n with Node _ attrs _ => attrs end.

Definition attrOf (name : string) (n : node) : option string :=
  snd <$> find (λ p, bool_decide (fst p = name)) (attrsOf n).

(** Markup of an element, attribute values in single quotes. *)
Fixpoint render (n : node) : string :=
  match n with
  | Node tag attrs kids =>
      "<" ++ tag
      ++ String.concat EmptyString
           (map (λ p, " " ++ fst p ++ "='" ++ snd p ++ "'") attrs)
      ++ ">" ++ String.concat EmptyString (map render kids)
      ++ "</" ++ tag ++ ">"
  end.

Fixpoint descendants (n : node) : list node :=
  match n with
  | Node _ _ kids => flat_map (λ k, k :: descendants k) kids
  end.

(** The selectors an element answers to: [tag], [tag[attr]] and
    [[attr="value"]]. *)
Definition selectorsOf (n : node) : list string :=
  tagOf n
  :: map (λ p, tagOf n ++ "[" ++ fst p ++ "]") (attrsOf n)
  ++ map (λ p, "[" ++ fst p ++ "=" ++ String "034"%char (snd p)
               ++ String "034"%char "]") (attrsOf n).

Definition matches (selector : string) (n : node) : bool :=
  bool_decide (selector ∈ selectorsOf n).

Record selection : Type := mkSelection {
  nodes : list node;
  baseURL : string
}.

Definition firstAttr (s : selection) (name : string) : jsValue :=
  match nodes s with
  | n :: _ =>
      match attrOf name n with
      | Some v => jsString v
      | None => jsUndefined
      end
  | [] => jsUndefined
  end.

(** The form controls that are serialized: named inputs that are
    neither buttons nor disabled. *)
Definition submittable (n : node) : bool :=
  bool_decide (tagOf n = "input")
  && negb (bool_decide (default EmptyString (attrOf "name" n) = EmptyString))
  && negb (bool_decide (attrOf "disabled" n = Some "disabled"))
  && negb (bool_decide (default EmptyString (attrOf "type" n)
                        ∈ ["submit"; "button"; "reset"; "image"; "file"])).

Definition serialize (s : selection) : gmap string jsValue :=
  let controls := filter (λ n, submittable n = true)
                         (flat_map descendants (nodes s)) in
  list_to_map
    (reverse
       (map (λ n, (default EmptyString (attrOf "name" n),
                   firstAttr (mkSelection [n] (baseURL s)) "value"))
            controls)).

(** The engine knows the pages of [corpus]; any other markup parses to
    an empty document. *)
Definition html (corpus : list node) : HTMLEngine := {|
  Selection := selection;
  ParseHTML := λ markup,
    match find (λ n, bool_decide (render n = markup)) corpus with
    | Some n => Ok (mkSelection [Node "#document" [] [n]] EmptyString)
    | None => Ok (mkSelection [Node "#document" [] []] EmptyString)
    end;
  Selection_setURL := λ s url, mkSelection (nodes s) url;
  Selection_Find := λ s selector,
    mkSelection
      (filter (λ n, matches selector n = true)
              (flat_map descendants (nodes s)))
      (baseURL s);
  Selection_Size := λ s, length (nodes s);
  Selection_Attr := firstAttr;
  Selection_Val := λ s,
    match nodes s with
    | n :: _ =>
        if bool_decide (tagOf n ∈ ["input"; "button"])
        then firstAttr s "value" else jsUndefined
    | [] => jsUndefined
    end;
  Selection_SerializeObject := serialize
|}.

(** The same engine, except that markup outside [corpus] is a parse
    error. *)
Definition strictHtml (corpus : list node) : HTMLEngine := {|
  Selection := selection;
  ParseHTML := λ markup,
    match find (λ n, bool_decide (render n = markup)) corpus with
    | Some n => Ok (mkSelection [Node "#document" [] [n]] EmptyString)
    | None => Err (foreignError "html" "unknown markup")
    end;
  Selection_setURL := λ s url, mkSelection (nodes s) url;
  Selection_Find := @Selection_Find _ (html corpus);
  Selection_Size := @Selection_Size _ (html corpus);
  Selection_Attr := @Selection_Attr _ (html corpus);
  Selection_Val := @Selection_Val _ (html corpus);
  Selection_SerializeObject := serialize
|}.

(** *** Request issuer: hands back the request it was asked to make *)

Record request : Type := mkRequest {
  reqMethod : string;
  reqURL : jsValue;
  reqBody : jsValue;
  reqParams : jsValue
}.

Global Instance issuer : Issuer := {|
  Reply := request;
  HTTP_Request := mkRequest;
  HTTP_Get := λ url params, mkRequest "GET" url jsUndefined params
|}.

End Double.

(** ** Sample inputs *)
Module Samples.
Import Double.

Definition quote : string := String "034"%char EmptyString.

(** The JSON text of an object with members a = 1 and b = 2. *)
Definition jsonAB : string :=
  "{" ++ quote ++ "a" ++ quote ++ ":1," ++ quote ++ "b" ++ quote ++ ":2}".

Definition notJSON : string := "{oops".

Definition okResponse : Response :=
  newResponse "http://host/data" (BodyString jsonAB).
Definition badResponse : Response :=
  newResponse "http://host/data" (BodyBytes (list_byte_of_string notJSON)).
Definition oddResponse : Response :=
  newResponse "http://host/data" (BodyOther "int").


(** A page with a POST form: action /submit, one text field x = 1 and a
    submit button named go. *)
Definition postPage : node :=
  Node "html" []
    [Node "form" [("method", "post"); ("action", "/submit")]
       [Node "input" [("name", "x"); ("value", "1")] [];
        Node "input" [("type", "submit"); ("name", "go"); ("value", "Go")]
             []]].

(** A form with neither method nor action. *)
Definition plainPage : node :=
  Node "html" []
    [Node "form" []
       [Node "input" [("name", "x y"); ("value", "1&2")] [];
        Node "input" [("type", "submit"); ("name", "go"); ("value", "Go")]
             []]].

(** A POST form whose action attribute is present and empty. *)
Definition emptyActionPage : node :=
  Node "html" []
    [Node "form" [("method", "post"); ("action", EmptyString)]
       [Node "input" [("name", "x"); ("value", "1")] []]].

(** A page without any form. *)
Definition barePage : node := Node "html" [] [].

(** Two anchors, the first with an href and the second without. *)
Definition linkPage : node :=
  Node "html" [] [Node "a" [("href", "../c")] []; Node "a" [] []].

(** One anchor without href. *)
Definition deadLinkPage : node := Node "html" [] [Node "a" [] []].

Definition corpus : list node :=
  [postPage; plainPage; emptyActionPage; barePage; linkPage; deadLinkPage].

Definition engine : HTMLEngine := html corpus.

Definition pageAt (url : string) (page : node) : Response :=
  newResponse url (BodyString (render page)).

(** The caller's options of a [submitForm] call that overrides x. *)
Definition overrideX : list jsValue :=
  [jsObject [("fields", jsObject [("x", jsString "9")])]].


(** An anchor whose href does not parse as a URL. *)
Definition badHrefPage : node := Node "html" [] [Node "a" [("href", ":")] []].

Definition strictEngine : HTMLEngine := strictHtml [postPage; badHrefPage].

(** An options object with all four keys of [submitForm], one unknown
    key, and a [fields] value that is not a mapping. *)
Definition busyOptions : list (string * jsValue) :=
  [("params", jsString "p"); ("colour", jsString "red");
   ("fields", jsString "x=9"); ("submitSelector", jsString "button");
   ("formSelector", jsString "form[method]")].

(** An options object for [clickLink], and a second argument. *)
Definition linkOptions : list jsValue :=
  [jsObject [("params", jsString "p"); ("selector", jsString "a")];
   jsString "ignored"].

End Samples.

Close Scope string_scope.

(** ** The lazy JSON accessor *)

Section JSONFacts.
Context `{RT : Runtime} `{JL : !JSONLib}.

Lemma parses_app (t1 t2 : list Event) :
  parses (t1 ++ t2) = parses t1 + parses t2.
Proof. unfold parses. by rewrite filter_app, length_app. Qed.

Lemma JSON_select_after body sel0 res t :
  after (JSON_select body sel0 res t) = res.
Proof. unfold JSON_select. by destruct (Result_Exists _). Qed.

Lemma JSON_select_trace body sel0 res t :
  trace (JSON_select body sel0 res t) = t ++ [EvGetBytes body sel0].
Proof. unfold JSON_select. by destruct (Result_Exists _). Qed.

(** A call never touches the URL or the body. *)
Lemma JSON_keeps_body selector res :
  Body (after (JSON selector res)) = Body res
  ∧ URL (after (JSON selector res)) = URL res.
Proof.
  unfold JSON.
  destruct (cachedJSON res), selector, (bodyAsBytes (Body res)); simpl;
    rewrite ?JSON_select_after; try done;
    repeat (case_match; simpl; rewrite ?JSON_select_after; try done).
Qed.

(** With a selector the cache is passed through untouched, and nothing
    is decoded. *)
Lemma JSON_selector_cache sel0 sels res :
  cachedJSON (after (JSON (sel0 :: sels) res)) = cachedJSON res
  ∧ parses (trace (JSON (sel0 :: sels) res)) = 0.
Proof.
  unfold JSON.
  destruct (cachedJSON res) eqn:Hc, (bodyAsBytes (Body res)); simpl;
    try done;
    repeat (case_match; simpl;
            rewrite ?JSON_select_after, ?JSON_select_trace; try done).
Qed.

(** With a selector the cache content has no influence on the call. *)
Lemma JSON_selector_blind sel0 sels res c :
  let r := JSON (sel0 :: sels) res in
  let r' := JSON (sel0 :: sels) (withCache c res) in
  out r' = out r ∧ trace r' = trace r
  ∧ after r' = withCache c (after r).
Proof.
  destruct res as [url body cj vj]. unfold JSON, withCache; simpl.
  destruct (bodyAsBytes body) as [bytes|]; [|by destruct cj, c].
  assert (Hsel : ∀ r1 r2 t,
    out (JSON_select bytes sel0 r1 t) = out (JSON_select bytes sel0 r2 t)
    ∧ trace (JSON_select bytes sel0 r1 t)
      = trace (JSON_select bytes sel0 r2 t)).
  { intros. unfold JSON_select. by destruct (Result_Exists _). }
  destruct cj, c, vj, (gjson_ValidBytes bytes); simpl;
    rewrite ?JSON_select_after; try done;
    (split; [apply Hsel | split; [apply Hsel | done]]).
Qed.

(** Without a selector and with a filled cache: the cached value, no
    library call, no write. *)
Lemma JSON_cached res c :
  cachedJSON res = Some c → JSON [] res = mkRun (Return c) res [].
Proof. unfold JSON. by intros ->. Qed.

(** Without a selector and with an empty cache: one decoding. *)
Lemma JSON_first res bytes v :
  cachedJSON res = None →
  bodyAsBytes (Body res) = Some bytes →
  json_Unmarshal bytes = Ok v →
  JSON [] res
  = mkRun (Return (ToValue v))
      (set_cachedJSON (set_validatedJSON res) (ToValue v))
      [EvUnmarshal bytes].
Proof. unfold JSON. by intros -> -> ->. Qed.

Lemma JSON_first_fails res bytes e :
  cachedJSON res = None →
  bodyAsBytes (Body res) = Some bytes →
  json_Unmarshal bytes = Err e →
  JSON [] res = mkRun (Throw e) res [EvUnmarshal bytes].
Proof. unfold JSON. by intros -> -> ->. Qed.

End JSONFacts.

Section JSONClaims.
Context `{RT : Runtime} `{JL : !JSONLib} `{HE : !HTMLEngine}.

(** The invariant behind "parsed at most once": while the body decodes
    to [v], the cache is either empty or holds [ToValue v]; one
    decoding remains possible only in the first case. *)
Lemma JSON_calls_once bytes v calls : ∀ res,
  bodyAsBytes (Body res) = Some bytes →
  json_Unmarshal bytes = Ok v →
  cachedJSON res = None ∨ cachedJSON res = Some (ToValue v) →
  Forall2 (λ selector r, selector = [] → out r = Return (ToValue v))
          calls (JSON_calls calls res)
  ∧ parses (concat (trace <$> JSON_calls calls res))
    ≤ match cachedJSON res with Some _ => 0 | None => 1 end.
Proof.
  induction calls as [|selector calls IH]; intros res Hb Hv Hc; simpl.
  { split; [constructor | unfold parses; destruct (cachedJSON res); simpl; lia]. }
  rewrite parses_app.
  destruct selector as [|sel0 sels].
  - destruct Hc as [Hc|Hc].
    + rewrite (JSON_first res bytes v Hc Hb Hv); simpl.
      destruct (IH (set_cachedJSON (set_validatedJSON res) (ToValue v)))
        as [IH1 IH2]; [done | done | by right |].
      rewrite Hc. simpl in *. unfold fmap in *. split; [by constructor | lia].
    + rewrite (JSON_cached res _ Hc); simpl.
      destruct (IH res) as [IH1 IH2]; [done | done | by right |].
      simpl in *. unfold fmap in *. split; [by constructor | lia].
  - destruct (JSON_selector_cache sel0 sels res) as [Hk Hp].
    destruct (JSON_keeps_body (sel0 :: sels) res) as [Hbody _].
    destruct (IH (after (JSON (sel0 :: sels) res))) as [IH1 IH2];
      [by rewrite Hbody | done | by rewrite Hk |].
    rewrite Hk in IH2. rewrite Hp. simpl in *. unfold fmap in *.
    split; [by constructor | lia].
Qed.

(** C1.  A response whose body is a byte sequence or a string that
    decodes as JSON: the first no-selector call decodes the body once
    and fills the cache; a no-selector call on a filled cache returns
    the cached value with no library call and no write; over any
    sequence of calls on a new response every no-selector call returns
    the same value and [json.Unmarshal] runs at most once; a call with
    a selector leaves the cache as it is, decodes nothing, and behaves
    the same whatever the cache holds. *)
Theorem JSON_parses_once url body bytes v :
  bodyAsBytes body = Some bytes →
  json_Unmarshal bytes = Ok v →
  (∀ res, Body res = body → cachedJSON res = None →
     JSON [] res
     = mkRun (Return (ToValue v))
         (set_cachedJSON (set_validatedJSON res) (ToValue v))
         [EvUnmarshal bytes])
  ∧ (∀ res c, Body res = body → cachedJSON res = Some c →
       JSON [] res = mkRun (Return c) res [])
  ∧ (∀ calls,
       let runs := JSON_calls calls (newResponse url body) in
       Forall2 (λ selector r, selector = [] → out r = Return (ToValue v))
               calls runs
       ∧ parses (concat (trace <$> runs)) ≤ 1)
  ∧ (∀ sel0 sels res c, Body res = body →
       let r := JSON (sel0 :: sels) res in
       let r' := JSON (sel0 :: sels) (withCache c res) in
       cachedJSON (after r) = cachedJSON res
       ∧ parses (trace r) = 0
       ∧ out r' = out r ∧ trace r' = trace r
       ∧ after r' = withCache c (after r)).
Proof.
  intros Hb Hv. repeat split.
  - intros res <- Hc. by apply JSON_first.
  - intros res c _ Hc. by apply JSON_cached.
  - by apply (JSON_calls_once bytes v calls (newResponse url body));
      [| |left].
  - by apply (JSON_calls_once bytes v calls (newResponse url body));
      [| |left].
  - apply JSON_selector_cache.
  - apply JSON_selector_cache.
  - apply JSON_selector_blind.
  - apply JSON_selector_blind.
  - apply JSON_selector_blind.
Qed.

(** On a body that neither the validator nor the decoder accepts, no
    call changes the response. *)
Lemma JSON_malformed_fixed res0 bytes e :
  cachedJSON res0 = None →
  validatedJSON res0 = false →
  bodyAsBytes (Body res0) = Some bytes →
  gjson_ValidBytes bytes = false →
  json_Unmarshal bytes = Err e →
  ∀ res, reachable_from res0 res → res = res0.
Proof.
  intros Hc Hf Hb Hvalid Hdec res Hreach.
  induction Hreach as [|selector res _ ->]; [done|].
  destruct selector as [|sel0 sels].
  - by rewrite (JSON_first_fails res0 bytes e).
  - unfold JSON. by rewrite Hc, Hb, Hf, Hvalid.
Qed.

(** C2.  A response whose body is a byte sequence or a string that is
    not JSON (the validator rejects it and the decoder fails with [e]):
    at any point of the script a call with a selector returns the
    undefined sentinel and does not throw, and a call without
    selector throws the decoder's error. *)
Theorem JSON_malformed url body bytes e res :
  bodyAsBytes body = Some bytes →
  gjson_ValidBytes bytes = false →
  json_Unmarshal bytes = Err e →
  reachable_from (newResponse url body) res →
  (∀ sel0 sels, out (JSON (sel0 :: sels) res) = Return Undefined)
  ∧ out (JSON [] res) = Throw e.
Proof.
  intros Hb Hvalid Hdec Hreach.
  rewrite (JSON_malformed_fixed (newResponse url body) bytes e
             eq_refl eq_refl Hb Hvalid Hdec res Hreach).
  split.
  - intros sel0 sels. unfold JSON; simpl. by rewrite Hb, Hvalid.
  - unfold JSON; simpl. by rewrite Hb, Hdec.
Qed.

(** On a body of another type no call changes the response either. *)
Lemma JSON_invalid_body_fixed res0 :
  cachedJSON res0 = None →
  bytesOrString (Body res0) = false →
  ∀ res, reachable_from res0 res → res = res0.
Proof.
  intros Hc Hb res Hreach.
  induction Hreach as [|selector res _ ->]; [done|].
  unfold JSON. rewrite Hc.
  by destruct (Body res0), selector.
Qed.

(** C9.  A response whose stored body is neither a byte sequence nor a
    string: at any point of the script, [JSON] with or without
    selector and [HTML] throw the invalid-response-type error. *)
Theorem invalid_body_type url body res selector :
  bytesOrString body = false →
  reachable_from (newResponse url body) res →
  out (JSON selector res) = Throw InvalidBodyType
  ∧ HTML selector res = Throw InvalidBodyType.
Proof.
  intros Hb Hreach.
  rewrite (JSON_invalid_body_fixed (newResponse url body)
             eq_refl Hb res Hreach).
  unfold JSON, HTML; simpl.
  by destruct body, selector.
Qed.

Lemma JSON_flag_truthful body selector res :
  flag_truthful body res → flag_truthful body (after (JSON selector res)).
Proof.
  destruct res as [url b cj vj]. intros (Hb & Hc & Hv); simpl in *; subst b.
  unfold JSON, flag_truthful; simpl.
  destruct (bodyAsBytes body) as [bytes|] eqn:Hbytes.
  - destruct selector as [|sel0 sels], cj as [c|]; simpl.
    + done.
    + destruct (json_Unmarshal bytes) as [v|e] eqn:Hdec; simpl; [|done].
      repeat split; try done. eauto.
    + destruct vj; simpl; rewrite ?JSON_select_after; [done|].
      by specialize (Hc ltac:(done)).
    + destruct vj; simpl; rewrite ?JSON_select_after; [done|].
      destruct (gjson_ValidBytes bytes) eqn:Hvalid; simpl;
        rewrite ?JSON_select_after; [|done].
      repeat split; try done. eauto.
  - by destruct selector, cj.
Qed.

Lemma reachable_flag_truthful url body res :
  reachable_from (newResponse url body) res → flag_truthful body res.
Proof.
  induction 1 as [|selector res _ IH].
  - by repeat split.
  - by apply JSON_flag_truthful.
Qed.

(** The flag is never reset, call after call. *)
Lemma JSON_flag_monotone selector res :
  validatedJSON res = true → validatedJSON (after (JSON selector res)) = true.
Proof.
  destruct res as [url b cj vj]; simpl; intros ->. unfold JSON; simpl.
  destruct cj, selector, (bodyAsBytes b); simpl;
    rewrite ?JSON_select_after; try done; by case_match.
Qed.

Lemma reachable_flag_monotone res0 res :
  reachable_from res0 res →
  validatedJSON res0 = true → validatedJSON res = true.
Proof.
  induction 1 as [|selector res _ IH]; [done|].
  intros H0. by apply JSON_flag_monotone, IH.
Qed.

Lemma reachable_keeps_body res0 res :
  reachable_from res0 res → Body res = Body res0.
Proof.
  induction 1 as [|selector res _ IH]; [done|].
  by rewrite (proj1 (JSON_keeps_body selector res)).
Qed.

(** With the flag set, a call with a selector goes straight to the path
    query. *)
Lemma JSON_validated_selects sel0 sels res bytes :
  validatedJSON res = true →
  bodyAsBytes (Body res) = Some bytes →
  JSON (sel0 :: sels) res
  = mkRun (if negb (Result_Exists (gjson_GetBytes bytes sel0))
           then Return Undefined
           else Return (ToValue (Result_Value (gjson_GetBytes bytes sel0))))
          res [EvGetBytes bytes sel0].
Proof.
  intros Hv Hb. unfold JSON. rewrite Hv, Hb; simpl. unfold JSON_select.
  destruct (cachedJSON res); by destruct (Result_Exists _).
Qed.

(** C10.  For a response a script can hold and any call [JSON selector]
    on it: a set flag stays set; an unset flag becomes set exactly when
    the call validated the body successfully (selector given) or
    decoded it successfully (no selector); a set flag tells the truth
    about the body; a no-selector call that returns leaves the flag
    set, and from then on every call with a selector skips the
    validation and returns undefined only when the path resolves to
    nothing; a call with a selector on a body the validator rejects
    leaves the response, flag and cache included, as it was. *)
Theorem validity_flag url body res selector :
  reachable_from (newResponse url body) res →
  let r := JSON selector res in
  (validatedJSON res = true → validatedJSON (after r) = true)
  ∧ (validatedJSON res = false →
     (validatedJSON (after r) = true ↔
      ∃ bytes, bodyAsBytes body = Some bytes
               ∧ ((selector ≠ [] ∧ gjson_ValidBytes bytes = true)
                  ∨ (selector = [] ∧ ∃ v, json_Unmarshal bytes = Ok v))))
  ∧ (validatedJSON res = true →
     ∃ bytes, bodyAsBytes body = Some bytes
              ∧ (gjson_ValidBytes bytes = true
                 ∨ ∃ v, json_Unmarshal bytes = Ok v))
  ∧ (selector = [] → ∀ c, out r = Return c →
     validatedJSON (after r) = true
     ∧ ∀ res' sel0 sels bytes,
         reachable_from (after r) res' →
         bodyAsBytes body = Some bytes →
         JSON (sel0 :: sels) res'
         = mkRun (if negb (Result_Exists (gjson_GetBytes bytes sel0))
                  then Return Undefined
                  else Return (ToValue
                                 (Result_Value (gjson_GetBytes bytes sel0))))
                 res' [EvGetBytes bytes sel0])
  ∧ (∀ sel0 sels bytes,
       bodyAsBytes body = Some bytes →
       gjson_ValidBytes bytes = false →
       after (JSON (sel0 :: sels) res) = res).
Proof.
  intros Hreach r.
  destruct (reachable_flag_truthful url body res Hreach) as (Hb & Hc & Hv).
  assert (Hset : selector = [] → ∀ c, out r = Return c →
                 validatedJSON (after r) = true).
  { intros -> c. subst r. unfold JSON. rewrite Hb.
    destruct (cachedJSON res) as [c'|]; simpl.
    - intros _. by apply Hc.
    - destruct (bodyAsBytes body) as [bytes|]; simpl; [|done].
      by destruct (json_Unmarshal bytes). }
  split; [apply JSON_flag_monotone|].
  split; [|split; [done|split]].
  - intros Hf. subst r. unfold JSON. rewrite Hb, Hf.
    assert (Hnone : cachedJSON res = None).
    { destruct (cachedJSON res); [|done].
      specialize (Hc ltac:(done)). congruence. }
    rewrite Hnone.
    destruct (bodyAsBytes body) as [bytes|]; simpl.
    + destruct selector as [|sel0 sels]; simpl.
      * destruct (json_Unmarshal bytes) as [v|e] eqn:Hdec; simpl.
        -- split; [|done]. intros _. exists bytes. split; [done|].
           right. eauto.
        -- rewrite Hf. split; [done|].
           intros (b' & [= <-] & [[? _]|[_ [v Hv']]]); [done|congruence].
      * destruct (gjson_ValidBytes bytes) eqn:Hvalid; simpl;
          rewrite ?JSON_select_after; simpl.
        -- split; [|done]. intros _. exists bytes. split; [done|].
           left. done.
        -- rewrite Hf. split; [done|].
           intros (b' & [= <-] & [[_ ?]|[? _]]); congruence.
    + rewrite Hf. split; [done|]. by intros (b' & ? & _).
  - intros Hsel c Hout. split; [by apply (Hset Hsel c)|].
    intros res' sel0 sels bytes Hreach' Hbytes.
    apply JSON_validated_selects.
    + apply (reachable_flag_monotone _ _ Hreach'). by apply (Hset Hsel c).
    + rewrite (reachable_keeps_body _ _ Hreach'). subst r.
      by rewrite (proj1 (JSON_keeps_body selector res)), Hb.
  - intros sel0 sels bytes Hbytes Hvalid. unfold JSON. rewrite Hb, Hbytes.
    destruct (validatedJSON res), (cachedJSON res); simpl;
      rewrite ?Hvalid, ?JSON_select_after; done.
Qed.

End JSONClaims.

(** ** Form submission and link following *)

Section NavigationClaims.
Context `{RT : Runtime} `{HE : !HTMLEngine} `{GL : GoLib} `{IS : !Issuer}.

(** The loop [for k, v := range fields { values[k] = v }] is a
    left-biased union. *)
Lemma assignAll_union (src dst : gmap string Value) :
  assignAll src dst = src ∪ dst.
Proof.
  unfold assignAll.
  apply (map_fold_weak_ind (λ acc m, acc = m ∪ dst)).
  - by rewrite (left_id_L ∅ (∪)).
  - intros k v m acc _ ->. by rewrite insert_union_l.
Qed.

(** The loop that fills [q] gives every field one query value, its
    string form. *)
Lemma formQuery_fmap (values : gmap string Value) :
  formQuery values = (λ v, [Value_String v]) <$> values.
Proof.
  unfold formQuery.
  apply (map_fold_weak_ind
           (λ (q : gmap string (list string)) m,
              q = (λ v, [Value_String v]) <$> m)).
  - by rewrite fmap_empty.
  - intros k v m q Hk ->. unfold Values_Add.
    by rewrite lookup_fmap, Hk, fmap_insert.
Qed.

(** The opening moves of every proof about [SubmitForm]: the options are
    read, the form is selected and found non-empty or empty. *)
Ltac enter_SubmitForm Ho Hform :=
  unfold SubmitForm; rewrite Ho; simpl; rewrite Hform; simpl;
  destruct (decide (Selection_Size _ = 0)); try done.

(** Likewise for [ClickLink]: options, response URL, selection. *)
Ltac enter_ClickLink Ho Hbase Hlink :=
  unfold ClickLink; rewrite Ho; simpl; rewrite Hbase; simpl;
  rewrite Hlink; simpl;
  destruct (decide (Selection_Size _ = 0)); try done.

(** What [SubmitForm] does once a form is selected and both URLs are
    resolved. *)
Lemma SubmitForm_issue args res o form base target :
  submitFormArgs args = Return o →
  HTML [formSelector o] res = Return form →
  Selection_Size form ≠ 0 →
  url_Parse (URL res) = Ok base →
  formTarget base form = Ok target →
  let values := formValues form (submitSelector o) (fields o) in
  SubmitForm args res
  = Return
      (if decide (formMethod form = HTTP_METHOD_GET)
       then HTTP_Request (formMethod form)
              (ToValue_string
                 (URL_String
                    (URL_setRawQuery target
                       (Values_Encode
                          ((λ v, [Value_String v]) <$> values)))))
              Null (requestParams o)
       else HTTP_Request (formMethod form)
              (ToValue_string (URL_String target))
              (ToValue_values values) (requestParams o)).
Proof.
  intros Ho Hform Hsize Hbase Htarget values. enter_SubmitForm Ho Hform.
  rewrite Hbase; simpl. rewrite Htarget; simpl.
  rewrite formQuery_fmap. by destruct (decide (formMethod form = _)).
Qed.

Local Open Scope string_scope.

(** C3, as the code has it.  [SubmitForm] selects the form before it
    looks at the response URL: when the form selector matches no
    element the call throws the no-form-found error, whether or not
    the URL can be parsed; the error of [url.Parse] on the response
    URL is thrown only when a form element was matched. *)
Theorem SubmitForm_form_before_URL args res o form :
  submitFormArgs args = Return o →
  HTML [formSelector o] res = Return form →
  (Selection_Size form = 0 →
   SubmitForm args res = Throw (FormNotFound (formSelector o) (URL res)))
  ∧ (Selection_Size form ≠ 0 → ∀ e,
     url_Parse (URL res) = Err e → SubmitForm args res = Throw e).
Proof.
  intros Ho Hform. split.
  - intros Hsize. by enter_SubmitForm Ho Hform.
  - intros Hsize e He. enter_SubmitForm Ho Hform. by rewrite He.
Qed.

(** C4, as the code has it.  Once a form is selected and the response
    URL parsed into [base]: an absent action attribute makes the base
    URL the target; a present one, empty or not, is parsed and
    resolved against the base, and the call throws the parse error if
    it cannot be parsed; the request goes to the target so determined
    (with its query component replaced when the method is GET). *)
Theorem SubmitForm_target args res o form base :
  submitFormArgs args = Return o →
  HTML [formSelector o] res = Return form →
  Selection_Size form ≠ 0 →
  url_Parse (URL res) = Ok base →
  let actionAttr := Selection_Attr form "action" in
  let values := formValues form (submitSelector o) (fields o) in
  (actionAttr = Undefined → formTarget base form = Ok base)
  ∧ (actionAttr ≠ Undefined → ∀ actionURL,
     url_Parse (Value_String actionAttr) = Ok actionURL →
     formTarget base form = Ok (URL_ResolveReference base actionURL))
  ∧ (actionAttr ≠ Undefined → ∀ e,
     url_Parse (Value_String actionAttr) = Err e →
     SubmitForm args res = Throw e)
  ∧ (∀ target, formTarget base form = Ok target →
     SubmitForm args res
     = Return
         (if decide (formMethod form = HTTP_METHOD_GET)
          then HTTP_Request (formMethod form)
                 (ToValue_string
                    (URL_String
                       (URL_setRawQuery target
                          (Values_Encode
                             ((λ v, [Value_String v]) <$> values)))))
                 Null (requestParams o)
          else HTTP_Request (formMethod form)
                 (ToValue_string (URL_String target))
                 (ToValue_values values) (requestParams o))).
Proof.
  intros Ho Hform Hsize Hbase actionAttr values. repeat split.
  - intros Ha. unfold formTarget. fold actionAttr.
    by destruct (decide (actionAttr = Undefined)).
  - intros Ha actionURL Hp. unfold formTarget. fold actionAttr.
    destruct (decide (actionAttr = Undefined)); [done|]. by rewrite Hp.
  - intros Ha e Hp. enter_SubmitForm Ho Hform.
    rewrite Hbase; simpl. unfold formTarget. fold actionAttr.
    destruct (decide (actionAttr = Undefined)); [done|]. by rewrite Hp.
  - intros target Ht.
    by rewrite (SubmitForm_issue args res o form base target
                  Ho Hform Hsize Hbase Ht).
Qed.

(** C5.  Once a form is selected and both URLs are resolved: the
    request method is the upper-cased method attribute when the form
    has one and GET otherwise; when the method is GET the request goes
    to the target URL with its query component replaced by the encoded
    field mapping (every field with its string form as only value),
    with the null body. *)
Theorem SubmitForm_method args res o form base target :
  submitFormArgs args = Return o →
  HTML [formSelector o] res = Return form →
  Selection_Size form ≠ 0 →
  url_Parse (URL res) = Ok base →
  formTarget base form = Ok target →
  let methodAttr := Selection_Attr form "method" in
  let values := formValues form (submitSelector o) (fields o) in
  let query := Values_Encode ((λ v, [Value_String v]) <$> values) in
  (methodAttr ≠ Undefined →
   formMethod form = strings_ToUpper (Value_String methodAttr))
  ∧ (methodAttr = Undefined → formMethod form = "GET")
  ∧ (formMethod form = "GET" →
     SubmitForm args res
     = Return (HTTP_Request "GET"
                 (ToValue_string
                    (URL_String (URL_setRawQuery target query)))
                 Null (requestParams o)))
  ∧ (formMethod form ≠ "GET" →
     SubmitForm args res
     = Return (HTTP_Request (formMethod form)
                 (ToValue_string (URL_String target))
                 (ToValue_values values) (requestParams o)))
  ∧ URL_setRawQuery target query
    = mkURL (Scheme target) (Opaque target) (Host target) (Path target)
            (ForceQuery target) query (Fragment target).
Proof.
  intros Ho Hform Hsize Hbase Htarget methodAttr values query.
  pose proof (SubmitForm_issue args res o form base target
                Ho Hform Hsize Hbase Htarget) as Hissue.
  simpl in Hissue. fold values in Hissue. fold query in Hissue.
  unfold HTTP_METHOD_GET in Hissue.
  repeat split.
  - intros Hm. unfold formMethod. fold methodAttr.
    by destruct (decide (methodAttr = Undefined)).
  - intros Hm. unfold formMethod. fold methodAttr.
    by destruct (decide (methodAttr = Undefined)).
  - intros Hm. rewrite Hissue.
    destruct (decide (formMethod form = "GET")); [by rewrite Hm | done].
  - intros Hm. rewrite Hissue.
    by destruct (decide (formMethod form = "GET")).
Qed.

(** The mapping [formValues] builds: the serialized form fields; over
    them the name and value of the submit-selector match when both are
    defined; over both the given [flds].  Entry by entry: the value of
    [flds] if there is one, else the submit control's value under the
    submit control's name, else the serialized value. *)
Lemma formValues_precedence form submitSel flds :
  let submit := Selection_Find form submitSel in
  let name := Selection_Attr submit "name" in
  let val := Selection_Val submit in
  let extracted := Selection_SerializeObject form in
  formValues form submitSel flds
  = flds ∪ (if decide (name ≠ Undefined ∧ val ≠ Undefined)
            then <[Value_String name := val]> extracted
            else extracted)
  ∧ ∀ k, formValues form submitSel flds !! k
         = match flds !! k with
           | Some v => Some v
           | None =>
               if decide ((name ≠ Undefined ∧ val ≠ Undefined)
                          ∧ Value_String name = k)
               then Some val
               else extracted !! k
           end.
Proof.
  intros submit name val extracted.
  assert (Heq : formValues form submitSel flds
                = flds ∪ (if decide (name ≠ Undefined ∧ val ≠ Undefined)
                          then <[Value_String name := val]> extracted
                          else extracted)).
  { unfold formValues. by rewrite assignAll_union. }
  split; [done|]. intros k. rewrite Heq.
  destruct (flds !! k) as [v|] eqn:Hk.
  - by apply lookup_union_Some_l.
  - rewrite (lookup_union_r _ _ _ Hk).
    destruct (decide (name ≠ Undefined ∧ val ≠ Undefined)) as [Hd|Hd].
    + rewrite lookup_insert.
      destruct (decide (Value_String name = k)) as [->|Hne].
      * by rewrite decide_True.
      * destruct (decide _) as [[_ ?]|_]; done.
    + destruct (decide _) as [[? _]|_]; done.
Qed.

(** The two messages differ whatever selector and URL they quote. *)
Lemma ElementNotFound_ne_MissingHref s u s' u' :
  ElementNotFound s u ≠ MissingHrefAttribute s' u'.
Proof. unfold ElementNotFound, MissingHrefAttribute, fmt_Errorf2. done. Qed.

(** C7.  Once the response URL is parsed and the markup is selected
    from: a selector that matches no element makes [ClickLink] throw
    the no-element-found error; a match without href attribute makes
    it throw the no-valid-href error; the two errors are different
    values. *)
Theorem ClickLink_failures args res o base link :
  clickLinkArgs args = Return o →
  url_Parse (URL res) = Ok base →
  HTML [linkSelector o] res = Return link →
  (Selection_Size link = 0 →
   ClickLink args res
   = Throw (ElementNotFound (linkSelector o) (URL res)))
  ∧ (Selection_Size link ≠ 0 →
     Selection_Attr link "href" = Undefined →
     ClickLink args res
     = Throw (MissingHrefAttribute (linkSelector o) (URL res)))
  ∧ (∀ s u s' u', ElementNotFound s u ≠ MissingHrefAttribute s' u').
Proof.
  intros Ho Hbase Hlink. repeat split.
  - intros Hsize. by enter_ClickLink Ho Hbase Hlink.
  - intros Hsize Hhref. enter_ClickLink Ho Hbase Hlink.
    by destruct (decide (Selection_Attr link "href" = Undefined)).
  - apply ElementNotFound_ne_MissingHref.
Qed.

(** [ClickLink] on a link with a parseable href. *)
Lemma ClickLink_issue args res o base link hrefURL :
  clickLinkArgs args = Return o →
  url_Parse (URL res) = Ok base →
  HTML [linkSelector o] res = Return link →
  Selection_Size link ≠ 0 →
  Selection_Attr link "href" ≠ Undefined →
  url_Parse (Value_String (Selection_Attr link "href")) = Ok hrefURL →
  ClickLink args res
  = Return (HTTP_Get
              (ToValue_string
                 (URL_String (URL_ResolveReference base hrefURL)))
              (linkParams o)).
Proof.
  intros Ho Hbase Hlink Hsize Hhref Hp. enter_ClickLink Ho Hbase Hlink.
  destruct (decide (Selection_Attr link "href" = Undefined)); [done|].
  by rewrite Hp.
Qed.

End NavigationClaims.

(** ** Link following against net/url *)

Section LinkResolution.
Local Open Scope string_scope.

(** C8.  Whatever the collaborators: when a link is selected and its
    href parses, [ClickLink] resolves the href against the response URL
    and issues a GET to the resolved URL.  With net/url as the URL
    library: on a response at http://host/a/b a link with href ../c
    makes it issue a GET to http://host/c. *)
Theorem ClickLink_resolves :
  (∀ (RT : Runtime) (HE : HTMLEngine) (GL : GoLib) (IS : Issuer)
     args res o base link hrefURL,
     clickLinkArgs args = Return o →
     url_Parse (URL res) = Ok base →
     HTML [linkSelector o] res = Return link →
     Selection_Size link ≠ 0 →
     Selection_Attr link "href" ≠ Undefined →
     url_Parse (Value_String (Selection_Attr link "href")) = Ok hrefURL →
     ClickLink args res
     = Return (HTTP_Get
                 (ToValue_string
                    (URL_String (URL_ResolveReference base hrefURL)))
                 (linkParams o)))
  ∧ (∀ (RT : Runtime) (HE : HTMLEngine) (IS : Issuer) args res o link,
       clickLinkArgs args = Return o →
       URL res = "http://host/a/b" →
       HTML [linkSelector o] res = Return link →
       Selection_Size link ≠ 0 →
       Selection_Attr link "href" ≠ Undefined →
       Value_String (Selection_Attr link "href") = "../c" →
       ClickLink (GL := GoURL.lib) args res
       = Return (HTTP_Get (ToValue_string "http://host/c") (linkParams o))).
Proof.
  split.
  - intros RT HE GL IS args res o base link hrefURL Ho Hb Hl Hs Hh Hp.
    by apply (ClickLink_issue args res o base link hrefURL).
  - intros RT HE IS args res o link Ho Hurl Hlink Hsize Hhref Hval.
    rewrite (ClickLink_issue (GL := GoURL.lib) args res o
               (mkURL "http" EmptyString "host" "/a/b" false EmptyString EmptyString)
           link
               (mkURL EmptyString EmptyString EmptyString "../c" false EmptyString
              EmptyString)); try done.
    + by rewrite Hurl.
    + by rewrite Hval.
Qed.

End LinkResolution.

(** ** The methods run on the sample inputs *)

Section Runs.
Import Double Samples.
Local Open Scope string_scope.
Local Existing Instance engine.

(** The testable properties of the specification that name concrete
    inputs. *)
Example JSON_path_a :
  out (JSON ["a"] okResponse) = Return (jsNumber 1).
Proof. vm_compute. reflexivity. Qed.

Example JSON_path_c :
  out (JSON ["c"] okResponse) = Return jsUndefined.
Proof. vm_compute. reflexivity. Qed.

Example SubmitForm_post :
  SubmitForm [] (pageAt "http://host/form" postPage)
  = Return (mkRequest "POST" (jsString "http://host/submit")
              (jsObject [("go", jsString "Go"); ("x", jsString "1")])
              jsNull).
Proof. vm_compute. reflexivity. Qed.

Example SubmitForm_get :
  SubmitForm [] (pageAt "http://host/form?old=1" plainPage)
  = Return (mkRequest "GET" (jsString "http://host/form?go=Go&x+y=1%262")
              jsNull jsNull).
Proof. vm_compute. reflexivity. Qed.

Example SubmitForm_override :
  SubmitForm overrideX (pageAt "http://host/form" postPage)
  = Return (mkRequest "POST" (jsString "http://host/submit")
              (jsObject [("go", jsString "Go"); ("x", jsString "9")])
              jsNull).
Proof. vm_compute. reflexivity. Qed.

(** C3 as stated fails: the response URL does not parse and no element
    matches the form selector, and [SubmitForm] throws the
    no-form-found error, not the error of [url.Parse]. *)
Lemma SubmitForm_no_form_first :
  url_Parse (URL (pageAt ":" barePage))
  = Err (foreignError "net/url" "missing protocol scheme")
  ∧ (∃ form, HTML ["form"] (pageAt ":" barePage) = Return form
             ∧ Selection_Size form = 0)
  ∧ SubmitForm [] (pageAt ":" barePage) = Throw (FormNotFound "form" ":")
  ∧ SubmitForm [] (pageAt ":" barePage)
    ≠ Throw (foreignError "net/url" "missing protocol scheme").
Proof.
  split; [vm_compute; reflexivity|].
  split; [eexists; split; vm_compute; reflexivity|].
  split; [vm_compute; reflexivity|].
  vm_compute. discriminate.
Qed.

(** C4 as stated fails: the action attribute is present and empty, and
    the target is the empty reference resolved against the base, which
    here is not the base URL. *)
Lemma SubmitForm_empty_action_resolved :
  ∃ form base target,
    HTML ["form"] (pageAt "http://host/a/../b" emptyActionPage)
    = Return form
    ∧ Selection_Attr form "action" = jsString EmptyString
    ∧ url_Parse "http://host/a/../b" = Ok base
    ∧ url_Parse EmptyString = Ok GoURL.emptyURL
    ∧ formTarget base form = Ok target
    ∧ target = URL_ResolveReference base GoURL.emptyURL
    ∧ target ≠ base
    ∧ URL_String base = "http://host/a/../b"
    ∧ URL_String target = "http://host/b"
    ∧ SubmitForm [] (pageAt "http://host/a/../b" emptyActionPage)
      = Return (mkRequest "POST" (jsString "http://host/b")
                  (jsObject [("x", jsString "1")]) jsNull).
Proof.
  do 3 eexists.
  split; [vm_compute; reflexivity|].
  split; [vm_compute; reflexivity|].
  split; [vm_compute; reflexivity|].
  split; [vm_compute; reflexivity|].
  split; [vm_compute; reflexivity|].
  split; [vm_compute; reflexivity|].
  split; [vm_compute; discriminate|].
  repeat split; vm_compute; reflexivity.
Qed.

(** The general statements at work on the samples. *)

Lemma JSON_parses_once_run :
  bodyAsBytes (Body okResponse) = Some (list_byte_of_string jsonAB)
  ∧ json_Unmarshal (list_byte_of_string jsonAB)
    = Ok (jsObject [("a", jsNumber 1); ("b", jsNumber 2)])
  ∧ Forall2 (λ selector r,
               selector = [] →
               out r = Return (jsObject [("a", jsNumber 1);
                                         ("b", jsNumber 2)]))
            [[]; ["a"]; []; []]
            (JSON_calls [[]; ["a"]; []; []] okResponse)
  ∧ (parses (concat (trace <$> JSON_calls [[]; ["a"]; []; []] okResponse))
     ≤ 1)%nat.
Proof.
  split; [reflexivity|]. split; [vm_compute; reflexivity|].
  exact (proj1 (proj2 (proj2
           (JSON_parses_once (JL := json) "http://host/data"
              (BodyString jsonAB)
              (list_byte_of_string jsonAB)
              (jsObject [("a", jsNumber 1); ("b", jsNumber 2)])
              eq_refl ltac:(vm_compute; reflexivity))))
           [[]; ["a"]; []; []]).
Defined.

Lemma JSON_malformed_run :
  gjson_ValidBytes (list_byte_of_string notJSON) = false
  ∧ json_Unmarshal (list_byte_of_string notJSON)
    = Err (foreignError "encoding/json" "invalid character")
  ∧ (∀ sel0 sels,
       out (JSON (sel0 :: sels) (after (JSON ["a"] badResponse)))
       = Return jsUndefined)
  ∧ out (JSON [] (after (JSON ["a"] badResponse)))
    = Throw (foreignError "encoding/json" "invalid character").
Proof.
  split; [vm_compute; reflexivity|]. split; [vm_compute; reflexivity|].
  exact (JSON_malformed (JL := json) "http://host/data"
           (BodyBytes (list_byte_of_string notJSON))
           (list_byte_of_string notJSON)
           (foreignError "encoding/json" "invalid character")
           (after (JSON ["a"] badResponse))
           eq_refl ltac:(vm_compute; reflexivity)
           ltac:(vm_compute; reflexivity)
           (reach_JSON _ ["a"] _ (reach_start _))).
Defined.

Lemma invalid_body_type_run :
  bytesOrString (Body oddResponse) = false
  ∧ out (JSON ["a"] (after (JSON [] oddResponse))) = Throw InvalidBodyType
  ∧ HTML ["form"] (after (JSON [] oddResponse)) = Throw InvalidBodyType.
Proof.
  split; [reflexivity|].
  exact (invalid_body_type (JL := json) (HE := engine)
           "http://host/data" (BodyOther "int")
           (after (JSON [] oddResponse)) _ eq_refl
           (reach_JSON _ [] _ (reach_start _))).
Defined.

Lemma validity_flag_run :
  validatedJSON okResponse = false
  ∧ validatedJSON (after (JSON [] okResponse)) = true
  ∧ trace (JSON ["a"] (after (JSON [] okResponse)))
    = [EvGetBytes (list_byte_of_string jsonAB) "a"].
Proof.
  split; [reflexivity|].
  destruct (validity_flag (JL := json) "http://host/data" (BodyString jsonAB)
              okResponse [] (reach_start _))
    as (_ & _ & _ & Hset & _).
  destruct (Hset eq_refl (jsObject [("a", jsNumber 1); ("b", jsNumber 2)])
              ltac:(vm_compute; reflexivity)) as [Hflag Hlater].
  split; [exact Hflag|].
  rewrite (Hlater _ "a" [] (list_byte_of_string jsonAB)
             (reach_start _) eq_refl).
  reflexivity.
Defined.

Lemma SubmitForm_form_before_URL_run :
  (∃ form, HTML ["form"] (pageAt ":" barePage) = Return form
           ∧ Selection_Size form = 0)
  ∧ SubmitForm [] (pageAt ":" barePage) = Throw (FormNotFound "form" ":").
Proof.
  split; [eexists; split; vm_compute; reflexivity|].
  refine (proj1 (SubmitForm_form_before_URL (HE := engine) (GL := GoURL.lib)
                   (IS := issuer) [] (pageAt ":" barePage)
                   submitFormDefaults _ eq_refl
                   ltac:(vm_compute; reflexivity)) _).
  vm_compute. reflexivity.
Defined.

Lemma SubmitForm_target_run :
  ∃ form base,
    HTML ["form"] (pageAt "http://host/a/../b" emptyActionPage)
    = Return form
    ∧ Selection_Attr form "action" = jsString EmptyString
    ∧ url_Parse "http://host/a/../b" = Ok base
    ∧ formTarget base form
      = Ok (URL_ResolveReference base GoURL.emptyURL).
Proof.
  do 2 eexists.
  split; [vm_compute; reflexivity|].
  split; [vm_compute; reflexivity|].
  split; [vm_compute; reflexivity|].
  refine (proj1 (proj2
            (SubmitForm_target (HE := engine) (GL := GoURL.lib)
               (IS := issuer) []
               (pageAt "http://host/a/../b" emptyActionPage)
               submitFormDefaults _ _ eq_refl
               ltac:(vm_compute; reflexivity) _
               ltac:(vm_compute; reflexivity))) _ _ _).
  - vm_compute. discriminate.
  - vm_compute. discriminate.
  - vm_compute. reflexivity.
Defined.

Lemma SubmitForm_method_run :
  (∃ form, HTML ["form"] (pageAt "http://host/form?old=1" plainPage)
           = Return form
           ∧ Selection_Attr form "method" = jsUndefined
           ∧ formMethod form = "GET")
  ∧ SubmitForm [] (pageAt "http://host/form?old=1" plainPage)
    = Return (mkRequest "GET"
                (jsString "http://host/form?go=Go&x+y=1%262")
                jsNull jsNull).
Proof.
  split.
  { eexists. split; [vm_compute; reflexivity|].
    split; vm_compute; reflexivity. }
  etransitivity.
  - refine (proj1 (proj2 (proj2
              (SubmitForm_method (HE := engine) (GL := GoURL.lib)
                 (IS := issuer) []
                 (pageAt "http://host/form?old=1" plainPage)
                 submitFormDefaults _ _ _ eq_refl
                 ltac:(vm_compute; reflexivity) _
                 ltac:(vm_compute; reflexivity)
                 ltac:(vm_compute; reflexivity)))) _).
    + vm_compute. discriminate.
    + vm_compute. reflexivity.
  - vm_compute. reflexivity.
Defined.

Lemma ClickLink_failures_run :
  (∃ link, HTML ["a"] (pageAt "http://host/a/b" deadLinkPage) = Return link
           ∧ Selection_Size link = 1
           ∧ Selection_Attr link "href" = jsUndefined)
  ∧ ClickLink [jsObject [("selector", jsString "a")]]
              (pageAt "http://host/a/b" deadLinkPage)
    = Throw (MissingHrefAttribute "a" "http://host/a/b")
  ∧ ClickLink [] (pageAt "http://host/a/b" deadLinkPage)
    = Throw (ElementNotFound "a[href]" "http://host/a/b").
Proof.
  split.
  { eexists. split; [vm_compute; reflexivity|].
    split; vm_compute; reflexivity. }
  split.
  - refine (proj1 (proj2
              (ClickLink_failures (HE := engine) (GL := GoURL.lib)
                 (IS := issuer) [jsObject [("selector", jsString "a")]]
                 (pageAt "http://host/a/b" deadLinkPage)
                 (mkClickLinkOptions "a" jsNull) _ _
                 ltac:(vm_compute; reflexivity)
                 ltac:(vm_compute; reflexivity)
                 ltac:(vm_compute; reflexivity))) _ _).
    + vm_compute. discriminate.
    + vm_compute. reflexivity.
  - refine (proj1
              (ClickLink_failures (HE := engine) (GL := GoURL.lib)
                 (IS := issuer) []
                 (pageAt "http://host/a/b" deadLinkPage)
                 clickLinkDefaults _ _
                 eq_refl
                 ltac:(vm_compute; reflexivity)
                 ltac:(vm_compute; reflexivity)) _).
    vm_compute. reflexivity.
Defined.

Lemma ClickLink_resolves_run :
  ClickLink [] (pageAt "http://host/a/b" linkPage)
  = Return (mkRequest "GET" (jsString "http://host/c") jsUndefined jsNull).
Proof.
  refine (proj2 ClickLink_resolves runtime engine issuer []
            (pageAt "http://host/a/b" linkPage) clickLinkDefaults _
            eq_refl eq_refl ltac:(vm_compute; reflexivity) _ _ _).
  - vm_compute. discriminate.
  - vm_compute. discriminate.
  - vm_compute. reflexivity.
Defined.

End Runs.

(** ** More on the lazy JSON accessor *)

Section JSONMore.
Context `{RT : Runtime} `{JL : !JSONLib}.

(** X1.  Asking again changes nothing: a second call with the same selector
    list has the outcome of the first and leaves the response as the
    first left it. *)
Theorem JSON_repeat selector res :
  let r1 := JSON selector res in
  let r2 := JSON selector (after r1) in
  out r2 = out r1 ∧ after r2 = after r1.
Proof.
  destruct res as [url body cj vj]. unfold JSON; simpl.
  destruct (bodyAsBytes body) as [bytes|] eqn:Hb.
  - destruct selector as [|sel0 sels].
    + destruct cj as [c|]; simpl; [done|].
      destruct (json_Unmarshal bytes) as [v|e] eqn:Hdec; simpl; [done|].
      by rewrite Hb, Hdec.
    + assert (Hsel : ∀ r t, after (JSON_select bytes sel0 r t) = r)
        by apply JSON_select_after.
      assert (Hout : ∀ r r' t t', out (JSON_select bytes sel0 r t)
                                  = out (JSON_select bytes sel0 r' t')).
      { intros. unfold JSON_select. by destruct (Result_Exists _). }
      destruct vj, (gjson_ValidBytes bytes) eqn:Hvalid; simpl.
      * destruct cj; simpl; rewrite !Hsel; simpl; rewrite Hb; simpl;
          by rewrite !Hsel.
      * destruct cj; simpl; rewrite !Hsel; simpl; rewrite Hb; simpl;
          by rewrite !Hsel.
      * destruct cj; simpl; rewrite !Hsel; simpl; rewrite Hb; simpl;
          rewrite !Hsel; (split; [apply Hout | done]).
      * destruct cj; simpl; by rewrite Hb, Hvalid.
  - destruct cj, selector; simpl; by rewrite ?Hb.
Qed.

Lemma JSON_cache_sound body selector res :
  cache_sound body res → cache_sound body (after (JSON selector res)).
Proof.
  destruct res as [url b cj vj]. intros [Hb Hc]; simpl in *; subst b.
  unfold JSON, cache_sound; simpl.
  destruct (bodyAsBytes body) as [bytes|] eqn:Hbytes.
  - destruct selector as [|sel0 sels], cj as [c|]; simpl.
    + done.
    + destruct (json_Unmarshal bytes) as [v|e] eqn:Hdec; simpl; [|done].
      split; [done|]. intros c [= <-]. split; [done|]. eauto.
    + destruct (Hc c eq_refl) as [-> Hdec]. simpl.
      by rewrite JSON_select_after.
    + destruct vj, (gjson_ValidBytes bytes); simpl;
        rewrite ?JSON_select_after; done.
  - by destruct selector, cj.
Qed.

Lemma reachable_cache_sound url body res :
  reachable_from (newResponse url body) res → cache_sound body res.
Proof.
  induction 1 as [|selector res _ IH].
  - by split.
  - by apply JSON_cache_sound.
Qed.

(** X2.  In every response a script can hold, a filled cache holds the value
    of the body as [json.Unmarshal] decodes it, and the flag is set. *)
Theorem cache_holds_decoding url body res c :
  reachable_from (newResponse url body) res →
  cachedJSON res = Some c →
  validatedJSON res = true
  ∧ ∃ bytes v, bodyAsBytes body = Some bytes
               ∧ json_Unmarshal bytes = Ok v ∧ c = ToValue v.
Proof.
  intros Hreach Hc.
  by apply (reachable_cache_sound url body res Hreach).
Qed.

(** X3.  Whatever calls came before, [JSON] without selector yields what
    decoding the body yields: the invalid-type error, the decoder's
    error, or the decoded value. *)
Theorem JSON_full_by_body url body res :
  reachable_from (newResponse url body) res →
  out (JSON [] res) = decodeBody body.
Proof.
  intros Hreach.
  destruct (reachable_cache_sound url body res Hreach) as [Hb Hc].
  unfold JSON, decodeBody. rewrite Hb.
  destruct (cachedJSON res) as [c|]; simpl.
  - destruct (Hc c eq_refl) as (_ & bytes & v & -> & -> & ->). done.
  - destruct (bodyAsBytes body) as [bytes|]; [|done].
    by destruct (json_Unmarshal bytes).
Qed.

Lemma validations_app (t1 t2 : list Event) :
  validations (t1 ++ t2) = validations t1 + validations t2.
Proof. unfold validations. by rewrite filter_app, length_app. Qed.

(** A decoding failure is not remembered: as long as the decoder rejects
    the body the cache stays empty, whatever is called. *)
Lemma JSON_failure_keeps_cache_empty bytes e selector res :
  bodyAsBytes (Body res) = Some bytes →
  json_Unmarshal bytes = Err e →
  cachedJSON res = None →
  cachedJSON (after (JSON selector res)) = None.
Proof.
  intros Hb Hdec Hc. destruct selector as [|sel0 sels].
  - by rewrite (JSON_first_fails res bytes e).
  - by rewrite (proj1 (JSON_selector_cache sel0 sels res)).
Qed.

Lemma JSON_calls_retry bytes e calls : ∀ res,
  bodyAsBytes (Body res) = Some bytes →
  json_Unmarshal bytes = Err e →
  cachedJSON res = None →
  Forall2 (λ selector r,
             selector = [] → out r = Throw e ∧ trace r = [EvUnmarshal bytes])
          calls (JSON_calls calls res)
  ∧ parses (concat (trace <$> JSON_calls calls res)) = fullCalls calls.
Proof.
  induction calls as [|selector calls IH]; intros res Hb Hdec Hc.
  { split; [constructor | done]. }
  destruct (IH (after (JSON selector res))) as [IH1 IH2].
  { by rewrite (proj1 (JSON_keeps_body selector res)). }
  { done. }
  { by apply (JSON_failure_keeps_cache_empty bytes e). }
  simpl. rewrite parses_app. unfold fmap in *. rewrite IH2.
  destruct selector as [|sel0 sels].
  - rewrite (JSON_first_fails res bytes e Hc Hb Hdec) in *. simpl.
    split; [by constructor | done].
  - rewrite (proj2 (JSON_selector_cache sel0 sels res)).
    split; [by constructor | done].
Qed.

(** X4.  Over any sequence of calls on a new response whose body the decoder
    rejects: every call without selector decodes again and throws the
    decoder's error, so [json.Unmarshal] runs once per such call. *)
Theorem JSON_failure_not_cached url body bytes e calls :
  bodyAsBytes body = Some bytes →
  json_Unmarshal bytes = Err e →
  let runs := JSON_calls calls (newResponse url body) in
  Forall2 (λ selector r,
             selector = [] → out r = Throw e ∧ trace r = [EvUnmarshal bytes])
          calls runs
  ∧ parses (concat (trace <$> runs)) = fullCalls calls.
Proof.
  intros Hb Hdec. by apply (JSON_calls_retry bytes e calls).
Qed.

(** X5.  On a body the validator accepts, a call with a selector yields what
    the path query yields, whatever the lazy fields hold, and leaves the
    flag set and the cache as it was. *)
Theorem JSON_selector_valid sel0 sels res bytes :
  bodyAsBytes (Body res) = Some bytes →
  gjson_ValidBytes bytes = true →
  let r := JSON (sel0 :: sels) res in
  let result := gjson_GetBytes bytes sel0 in
  out r = (if Result_Exists result
           then Return (ToValue (Result_Value result))
           else Return Undefined)
  ∧ validatedJSON (after r) = true
  ∧ cachedJSON (after r) = cachedJSON res.
Proof.
  intros Hb Hvalid. destruct res as [url body cj vj]; simpl in *.
  unfold JSON; simpl. rewrite Hb, Hvalid.
  destruct cj, vj; simpl; rewrite JSON_select_after; simpl;
    unfold JSON_select; by destruct (Result_Exists _).
Qed.

(** One call on a body the validator accepts: it validates only if the
    flag is not set, and then sets it. *)
Lemma JSON_validation_step bytes selector res :
  bodyAsBytes (Body res) = Some bytes →
  gjson_ValidBytes bytes = true →
  validations (trace (JSON selector res))
  + (if validatedJSON (after (JSON selector res)) then 0 else 1)
  ≤ (if validatedJSON res then 0 else 1).
Proof.
  intros Hb Hvalid. destruct res as [url body cj vj]; simpl in *.
  unfold JSON; simpl. rewrite Hb.
  destruct selector as [|sel0 sels].
  - destruct cj; simpl; [destruct vj; simpl; lia|].
    destruct (json_Unmarshal bytes); simpl; destruct vj; simpl; lia.
  - rewrite Hvalid.
    destruct cj, vj; simpl;
      rewrite JSON_select_after, JSON_select_trace; simpl; lia.
Qed.

Lemma JSON_calls_validate_once bytes calls : ∀ res,
  bodyAsBytes (Body res) = Some bytes →
  gjson_ValidBytes bytes = true →
  validations (concat (trace <$> JSON_calls calls res))
  ≤ (if validatedJSON res then 0 else 1).
Proof.
  induction calls as [|selector calls IH]; intros res Hb Hvalid.
  { unfold validations. destruct (validatedJSON res); simpl; lia. }
  specialize (IH (after (JSON selector res))).
  rewrite (proj1 (JSON_keeps_body selector res)) in IH.
  specialize (IH Hb Hvalid).
  pose proof (JSON_validation_step bytes selector res Hb Hvalid) as Hstep.
  simpl. rewrite validations_app. unfold fmap in *. lia.
Qed.

(** X6.  Over any sequence of calls on a new response whose body the
    validator accepts, [gjson.ValidBytes] runs at most once. *)
Theorem JSON_validates_once url body bytes calls :
  bodyAsBytes body = Some bytes →
  gjson_ValidBytes bytes = true →
  validations (concat (trace <$> JSON_calls calls (newResponse url body)))
  ≤ 1.
Proof.
  intros Hb Hvalid.
  by apply (JSON_calls_validate_once bytes calls (newResponse url body)).
Qed.

End JSONMore.

(** ** More on markup access, form submission and link following *)

Section NavigationMore.
Context `{RT : Runtime} `{JL : !JSONLib} `{HE : !HTMLEngine}
        `{GL : GoLib} `{IS : !Issuer}.
Local Open Scope string_scope.

(** The three markup methods read the URL and the body and nothing
    else. *)
Lemma navigation_by_URL_and_Body res res' :
  URL res = URL res' → Body res = Body res' →
  (∀ selector, HTML selector res = HTML selector res')
  ∧ (∀ args, SubmitForm args res = SubmitForm args res')
  ∧ (∀ args, ClickLink args res = ClickLink args res').
Proof.
  intros Hu Hb.
  assert (HH : ∀ selector, HTML selector res = HTML selector res').
  { intros selector. unfold HTML. by rewrite Hu, Hb. }
  repeat split; [done| |].
  - intros args. unfold SubmitForm.
    destruct (submitFormArgs args) as [o|e]; simpl; [|done].
    by rewrite HH, Hu.
  - intros args. unfold ClickLink.
    destruct (clickLinkArgs args) as [o|e]; simpl; [|done].
    rewrite Hu. destruct (throwOnErr _); simpl; [|done].
    by rewrite HH.
Qed.

Lemma reachable_keeps_URL res0 res :
  reachable_from res0 res → URL res = URL res0.
Proof.
  induction 1 as [|selector res _ IH]; [done|].
  by rewrite (proj2 (JSON_keeps_body selector res)).
Qed.

(** X7.  Reading the body as JSON, however often and with whatever
    selectors, never changes what [HTML], [SubmitForm] and [ClickLink]
    do on the response. *)
Theorem navigation_ignores_JSON res0 res :
  reachable_from res0 res →
  (∀ selector, HTML selector res = HTML selector res0)
  ∧ (∀ args, SubmitForm args res = SubmitForm args res0)
  ∧ (∀ args, ClickLink args res = ClickLink args res0).
Proof.
  intros Hreach. apply navigation_by_URL_and_Body.
  - by apply reachable_keeps_URL.
  - by apply reachable_keeps_body.
Qed.

(** X8.  A body stored as a string and the same body stored as the bytes of
    that string are treated alike by all four methods. *)
Theorem body_bytes_like_string s res :
  let rs := withBody (BodyString s) res in
  let rb := withBody (BodyBytes (list_byte_of_string s)) res in
  (∀ selector,
     out (JSON selector rb) = out (JSON selector rs)
     ∧ trace (JSON selector rb) = trace (JSON selector rs)
     ∧ after (JSON selector rb)
       = withBody (BodyBytes (list_byte_of_string s))
                  (after (JSON selector rs)))
  ∧ (∀ selector, HTML selector rb = HTML selector rs)
  ∧ (∀ args, SubmitForm args rb = SubmitForm args rs)
  ∧ (∀ args, ClickLink args rb = ClickLink args rs).
Proof.
  intros rs rb.
  assert (HH : ∀ selector, HTML selector rb = HTML selector rs).
  { intros selector. unfold HTML, rb, rs; simpl.
    by rewrite string_of_list_byte_of_string. }
  split; [|split; [done|split]].
  - intros selector. destruct res as [url body cj vj].
    unfold rb, rs, JSON, withBody; simpl.
    destruct cj, selector; simpl; try done.
    + destruct vj, (gjson_ValidBytes _); simpl;
        rewrite ?JSON_select_after, ?JSON_select_trace; simpl; try done;
        unfold JSON_select; by destruct (Result_Exists _).
    + by destruct (json_Unmarshal _).
    + destruct vj, (gjson_ValidBytes _); simpl;
        rewrite ?JSON_select_after, ?JSON_select_trace; simpl; try done;
        unfold JSON_select; by destruct (Result_Exists _).
  - intros args. unfold SubmitForm.
    destruct (submitFormArgs args) as [o|e]; simpl; [|done].
    by rewrite HH.
  - intros args. unfold ClickLink.
    destruct (clickLinkArgs args) as [o|e]; simpl; [|done].
    change (URL rb) with (URL rs).
    destruct (throwOnErr _); simpl; [|done]. by rewrite HH.
Qed.

(** X9.  [HTML] with a selector is [HTML] without selector followed by
    [Find] with the first selector; further selectors are not read. *)
Theorem HTML_narrows sel0 sels res :
  HTML (sel0 :: sels) res
  = sel ← HTML [] res; Return (Selection_Find sel sel0).
Proof.
  unfold HTML. destruct (bodyAsString (Body res)) as [body|]; [|done].
  by destruct (ParseHTML body).
Qed.

(** *** The options object *)

(** A key is in [k :: keys] when it is [k] or in [keys]: the three ways
    the hypotheses of a case can contradict that. *)
Ltac key_clash :=
  exfalso;
  match goal with
  | H : ?x ∉ ?x :: _ |- _ => apply H, elem_of_cons; by left
  | H : ?x ∉ _ :: ?l, H' : ?x ∈ ?l |- _ => apply H, elem_of_cons; by right
  | H : ?x ∈ _ :: ?l, H' : ?x ∉ ?l |- _ =>
      apply elem_of_cons in H as [?|?]; [congruence | done]
  end.

Ltac by_keys :=
  repeat case_decide; subst; simpl; try reflexivity; try discriminate;
  key_clash.

Lemma submitFormOption_fold params keys : ∀ o0,
  let o := fold_left (submitFormOption params) keys o0 in
  formSelector o
  = (if decide ("formSelector" ∈ keys)
     then Value_String (Object_Get params "formSelector")
     else formSelector o0)
  ∧ submitSelector o
    = (if decide ("submitSelector" ∈ keys)
       then Value_String (Object_Get params "submitSelector")
       else submitSelector o0)
  ∧ fields o
    = (if decide ("fields" ∈ keys)
       then match ExportTo_fields (Object_Get params "fields") with
            | Ok f => f
            | Err _ => ∅
            end
       else fields o0)
  ∧ requestParams o
    = (if decide ("params" ∈ keys)
       then Object_Get params "params"
       else requestParams o0).
Proof.
  induction keys as [|k keys IH]; intros o0; simpl.
  { repeat split; by rewrite decide_False by apply not_elem_of_nil. }
  destruct (IH (submitFormOption params o0 k)) as (H1 & H2 & H3 & H4).
  rewrite H1, H2, H3, H4. unfold submitFormOption.
  repeat split; by_keys.
Qed.

(** X10.  The options [SubmitForm] works with are decided by which of the four
    recognised keys the options object has: each present key gives its
    option, each absent one leaves the default, a [fields] value that
    cannot be exported counts as no fields; the order of the keys, other
    keys and further arguments play no part. *)
Theorem submitFormArgs_by_keys a rest params :
  ToObject a = Ok params →
  submitFormArgs (a :: rest)
  = Return
      (mkSubmitFormOptions
         (if decide ("formSelector" ∈ Object_Keys params)
          then Value_String (Object_Get params "formSelector")
          else formSelector submitFormDefaults)
         (if decide ("submitSelector" ∈ Object_Keys params)
          then Value_String (Object_Get params "submitSelector")
          else submitSelector submitFormDefaults)
         (if decide ("fields" ∈ Object_Keys params)
          then match ExportTo_fields (Object_Get params "fields") with
               | Ok f => f
               | Err _ => ∅
               end
          else ∅)
         (if decide ("params" ∈ Object_Keys params)
          then Object_Get params "params"
          else Null)).
Proof.
  intros Hobj. unfold submitFormArgs. rewrite Hobj; simpl.
  destruct (submitFormOption_fold params (Object_Keys params)
              submitFormDefaults) as (H1 & H2 & H3 & H4).
  destruct (fold_left _ _ _) as [fs ss fl rp]; simpl in *.
  by rewrite H1, H2, H3, H4.
Qed.

Lemma clickLinkOption_fold params keys : ∀ o0,
  let o := fold_left (clickLinkOption params) keys o0 in
  linkSelector o
  = (if decide ("selector" ∈ keys)
     then Value_String (Object_Get params "selector")
     else linkSelector o0)
  ∧ linkParams o
    = (if decide ("params" ∈ keys)
       then Object_Get params "params"
       else linkParams o0).
Proof.
  induction keys as [|k keys IH]; intros o0; simpl.
  { repeat split; by rewrite decide_False by apply not_elem_of_nil. }
  destruct (IH (clickLinkOption params o0 k)) as (H1 & H2).
  rewrite H1, H2. unfold clickLinkOption.
  repeat split; by_keys.
Qed.

(** X11.  Likewise for [ClickLink] and its two recognised keys. *)
Theorem clickLinkArgs_by_keys a rest params :
  ToObject a = Ok params →
  clickLinkArgs (a :: rest)
  = Return
      (mkClickLinkOptions
         (if decide ("selector" ∈ Object_Keys params)
          then Value_String (Object_Get params "selector")
          else linkSelector clickLinkDefaults)
         (if decide ("params" ∈ Object_Keys params)
          then Object_Get params "params"
          else Null)).
Proof.
  intros Hobj. unfold clickLinkArgs. rewrite Hobj; simpl.
  destruct (clickLinkOption_fold params (Object_Keys params)
              clickLinkDefaults) as (H1 & H2).
  destruct (fold_left _ _ _) as [ls lp]; simpl in *.
  by rewrite H1, H2.
Qed.

(** *** When a request is issued, and which error comes first *)

Lemma HTML_returns selector res sel :
  HTML selector res = Return sel → bytesOrString (Body res) = true.
Proof. unfold HTML. by destruct (Body res). Qed.

(** X12.  [SubmitForm] hands back a reply only when every step before the
    request succeeded: options read, body of an accepted type, a form
    matched, the response URL and the action parsed.  The reply is then
    what the issuer returns for the form's method and the caller's
    params. *)
Theorem SubmitForm_returns args res reply :
  SubmitForm args res = Return reply →
  ∃ o form base target,
    submitFormArgs args = Return o
    ∧ bytesOrString (Body res) = true
    ∧ HTML [formSelector o] res = Return form
    ∧ Selection_Size form ≠ 0
    ∧ url_Parse (URL res) = Ok base
    ∧ formTarget base form = Ok target
    ∧ ∃ url body,
        reply = HTTP_Request (formMethod form) url body (requestParams o).
Proof.
  unfold SubmitForm.
  destruct (submitFormArgs args) as [o|] eqn:Ho; simpl; [|done].
  destruct (HTML [formSelector o] res) as [form|] eqn:Hform; simpl; [|done].
  destruct (decide (Selection_Size form = 0)) as [|Hsize]; [done|].
  destruct (url_Parse (URL res)) as [base|] eqn:Hbase; simpl; [|done].
  destruct (formTarget base form) as [target|] eqn:Htarget; simpl; [|done].
  intros Hreply. exists o, form, base, target.
  repeat split; try done; [by eapply HTML_returns|].
  destruct (decide (formMethod form = HTTP_METHOD_GET));
    injection Hreply as <-; eauto.
Qed.

(** X13.  [ClickLink] hands back a reply only when the options were read, the
    response URL parsed, the body was of an accepted type, an element
    with an href matched and the href parsed.  The reply is then what
    the issuer returns for a GET to the resolved URL with the caller's
    params. *)
Theorem ClickLink_returns args res reply :
  ClickLink args res = Return reply →
  ∃ o base link hrefURL,
    clickLinkArgs args = Return o
    ∧ url_Parse (URL res) = Ok base
    ∧ bytesOrString (Body res) = true
    ∧ HTML [linkSelector o] res = Return link
    ∧ Selection_Size link ≠ 0
    ∧ Selection_Attr link "href" ≠ Undefined
    ∧ url_Parse (Value_String (Selection_Attr link "href")) = Ok hrefURL
    ∧ reply = HTTP_Get
                (ToValue_string
                   (URL_String (URL_ResolveReference base hrefURL)))
                (linkParams o).
Proof.
  unfold ClickLink.
  destruct (clickLinkArgs args) as [o|] eqn:Ho; simpl; [|done].
  destruct (url_Parse (URL res)) as [base|] eqn:Hbase; simpl; [|done].
  destruct (HTML [linkSelector o] res) as [link|] eqn:Hlink; simpl; [|done].
  destruct (decide (Selection_Size link = 0)) as [|Hsize]; [done|].
  destruct (decide (Selection_Attr link "href" = Undefined)) as [|Hhref];
    [done|].
  destruct (url_Parse (Value_String _)) as [hrefURL|] eqn:Hp; simpl; [|done].
  intros [= <-]. exists o, base, link, hrefURL.
  repeat split; try done. by eapply HTML_returns.
Qed.

(** X14.  The errors of [SubmitForm] that come before the form is looked at:
    an options argument that cannot be converted to an object throws
    first; then a body of another type throws the invalid-response-type
    error and markup the engine cannot parse throws the engine's error,
    in both cases without the response URL having been parsed. *)
Theorem SubmitForm_early_errors args res :
  (∀ a rest e, args = a :: rest → ToObject a = Err e →
     SubmitForm args res = Throw e)
  ∧ (∀ o, submitFormArgs args = Return o →
       bytesOrString (Body res) = false →
       SubmitForm args res = Throw InvalidBodyType)
  ∧ (∀ o markup e, submitFormArgs args = Return o →
       bodyAsString (Body res) = Some markup →
       ParseHTML markup = Err e →
       SubmitForm args res = Throw e).
Proof.
  repeat split.
  - intros a rest e -> He. unfold SubmitForm, submitFormArgs.
    by rewrite He.
  - intros o Ho Hb. unfold SubmitForm. rewrite Ho; simpl.
    unfold HTML. by destruct (Body res).
  - intros o markup e Ho Hb He. unfold SubmitForm. rewrite Ho; simpl.
    unfold HTML. by rewrite Hb, He.
Qed.

(** X15.  The errors of [ClickLink] in the order they come: an options
    argument that cannot be converted; then a response URL that does not
    parse, whatever the body; then a body of another type or markup the
    engine cannot parse; and, last, an href that does not parse. *)
Theorem ClickLink_error_order args res :
  (∀ a rest e, args = a :: rest → ToObject a = Err e →
     ClickLink args res = Throw e)
  ∧ (∀ o e, clickLinkArgs args = Return o →
       url_Parse (URL res) = Err e →
       ClickLink args res = Throw e)
  ∧ (∀ o base, clickLinkArgs args = Return o →
       url_Parse (URL res) = Ok base →
       bytesOrString (Body res) = false →
       ClickLink args res = Throw InvalidBodyType)
  ∧ (∀ o base markup e, clickLinkArgs args = Return o →
       url_Parse (URL res) = Ok base →
       bodyAsString (Body res) = Some markup →
       ParseHTML markup = Err e →
       ClickLink args res = Throw e)
  ∧ (∀ o base link e, clickLinkArgs args = Return o →
       url_Parse (URL res) = Ok base →
       HTML [linkSelector o] res = Return link →
       Selection_Size link ≠ 0 →
       Selection_Attr link "href" ≠ Undefined →
       url_Parse (Value_String (Selection_Attr link "href")) = Err e →
       ClickLink args res = Throw e).
Proof.
  repeat split.
  - intros a rest e -> He. unfold ClickLink, clickLinkArgs.
    by rewrite He.
  - intros o e Ho He. unfold ClickLink. rewrite Ho; simpl. by rewrite He.
  - intros o base Ho Hbase Hb. unfold ClickLink. rewrite Ho; simpl.
    rewrite Hbase; simpl. unfold HTML. by destruct (Body res).
  - intros o base markup e Ho Hbase Hb He. unfold ClickLink.
    rewrite Ho; simpl. rewrite Hbase; simpl. unfold HTML.
    by rewrite Hb, He.
  - intros o base link e Ho Hbase Hlink Hsize Hhref He.
    unfold ClickLink. rewrite Ho; simpl. rewrite Hbase; simpl.
    rewrite Hlink; simpl.
    destruct (decide (Selection_Size link = 0)); [done|].
    destruct (decide (Selection_Attr link "href" = Undefined)); [done|].
    by rewrite He.
Qed.

(** *** The field mapping [SubmitForm] sends *)

(** C6.  Once a form is selected and both URLs are resolved, the field
    mapping [SubmitForm] sends is built in this order: the serialized
    form fields; over them the name and value of the submit-selector
    match when both are defined; over both the caller's [fields], which
    are the exported [fields] entry of the options object (none when
    there is no options argument).  Entry by entry the mapping holds the
    caller's value if there is one, else the submit control's value
    under the submit control's name, else the serialized value.  This
    mapping is what the request carries: as its body when the method is
    not GET, encoded into the query of the target URL when it is. *)
Theorem SubmitForm_field_precedence args res o form base target :
  submitFormArgs args = Return o →
  HTML [formSelector o] res = Return form →
  Selection_Size form ≠ 0 →
  url_Parse (URL res) = Ok base →
  formTarget base form = Ok target →
  let submit := Selection_Find form (submitSelector o) in
  let name := Selection_Attr submit "name" in
  let val := Selection_Val submit in
  let extracted := Selection_SerializeObject form in
  let withSubmit :=
    if decide (name ≠ Undefined ∧ val ≠ Undefined)
    then <[Value_String name := val]> extracted
    else extracted in
  let values := fields o ∪ withSubmit in
  (args = [] → fields o = ∅)
  ∧ (∀ a rest params f,
       args = a :: rest →
       ToObject a = Ok params →
       "fields" ∈ Object_Keys params →
       ExportTo_fields (Object_Get params "fields") = Ok f →
       fields o = f)
  ∧ (∀ k, values !! k
          = match fields o !! k with
            | Some v => Some v
            | None =>
                if decide ((name ≠ Undefined ∧ val ≠ Undefined)
                           ∧ Value_String name = k)
                then Some val
                else extracted !! k
            end)
  ∧ SubmitForm args res
    = Return
        (if decide (formMethod form = HTTP_METHOD_GET)
         then HTTP_Request (formMethod form)
                (ToValue_string
                   (URL_String
                      (URL_setRawQuery target
                         (Values_Encode
                            ((λ v, [Value_String v]) <$> values)))))
                Null (requestParams o)
         else HTTP_Request (formMethod form)
                (ToValue_string (URL_String target))
                (ToValue_values values) (requestParams o)).
Proof.
  intros Ho Hform Hsize Hbase Htarget submit name val extracted
         withSubmit values.
  destruct (formValues_precedence form (submitSelector o) (fields o))
    as [Heq Hlookup].
  fold submit name val extracted in Heq, Hlookup.
  fold withSubmit in Heq. fold values in Heq.
  split; [|split; [|split]].
  - intros ->. simpl in Ho. by injection Ho as <-.
  - intros a rest params f -> Hobj Hkey Hexp.
    unfold submitFormArgs in Ho. rewrite Hobj in Ho; simpl in Ho.
    injection Ho as <-.
    destruct (submitFormOption_fold params (Object_Keys params)
                submitFormDefaults) as (_ & _ & Hfields & _).
    rewrite Hfields, decide_True by done. by rewrite Hexp.
  - intros k. rewrite <- Heq. apply Hlookup.
  - rewrite (SubmitForm_issue args res o form base target
               Ho Hform Hsize Hbase Htarget).
    by rewrite Heq.
Qed.

End NavigationMore.

(** ** Further runs on the sample inputs *)

Section RunsMore.
Import Double Samples.
Local Open Scope string_scope.
Local Existing Instance engine.

Lemma cache_holds_decoding_run :
  cachedJSON (after (JSON ["a"] (after (JSON [] okResponse))))
  = Some (jsObject [("a", jsNumber 1); ("b", jsNumber 2)])
  ∧ validatedJSON (after (JSON ["a"] (after (JSON [] okResponse)))) = true
  ∧ ∃ bytes v, bodyAsBytes (BodyString jsonAB) = Some bytes
               ∧ json_Unmarshal bytes = Ok v
               ∧ jsObject [("a", jsNumber 1); ("b", jsNumber 2)] = ToValue v.
Proof.
  split; [vm_compute; reflexivity|].
  exact (cache_holds_decoding (JL := json) "http://host/data"
           (BodyString jsonAB) _ _
           (reach_JSON _ ["a"] _ (reach_JSON _ [] _ (reach_start _)))
           ltac:(vm_compute; reflexivity)).
Defined.

Lemma JSON_full_by_body_run :
  decodeBody (Body badResponse)
  = Throw (foreignError "encoding/json" "invalid character")
  ∧ out (JSON [] (after (JSON ["a"] (after (JSON [] badResponse)))))
    = decodeBody (Body badResponse).
Proof.
  split; [vm_compute; reflexivity|].
  exact (JSON_full_by_body (JL := json) "http://host/data"
           (BodyBytes (list_byte_of_string notJSON)) _
           (reach_JSON _ ["a"] _ (reach_JSON _ [] _ (reach_start _)))).
Defined.

Lemma JSON_failure_not_cached_run :
  json_Unmarshal (list_byte_of_string notJSON)
  = Err (foreignError "encoding/json" "invalid character")
  ∧ (parses (concat (trace <$> JSON_calls [[]; ["a"]; []; []] badResponse))
     = 3)%nat.
Proof.
  split; [vm_compute; reflexivity|].
  exact (proj2 (JSON_failure_not_cached (JL := json) "http://host/data"
                  (BodyBytes (list_byte_of_string notJSON))
                  (list_byte_of_string notJSON)
                  (foreignError "encoding/json" "invalid character")
                  [[]; ["a"]; []; []]
                  eq_refl ltac:(vm_compute; reflexivity))).
Defined.

Lemma JSON_selector_valid_run :
  gjson_ValidBytes (list_byte_of_string jsonAB) = true
  ∧ out (JSON ["b"; "a"] (after (JSON [] okResponse)))
    = Return (jsNumber 2)
  ∧ out (JSON ["b"] okResponse) = Return (jsNumber 2).
Proof.
  split; [vm_compute; reflexivity|]. split.
  - pose (res := after (JSON [] okResponse)).
    etransitivity.
    + exact (proj1 (JSON_selector_valid (JL := json) "b" ["a"] res
                      (list_byte_of_string jsonAB)
                      ltac:(vm_compute; reflexivity)
                      ltac:(vm_compute; reflexivity))).
    + vm_compute. reflexivity.
  - etransitivity.
    + exact (proj1 (JSON_selector_valid (JL := json) "b" [] okResponse
                      (list_byte_of_string jsonAB)
                      eq_refl ltac:(vm_compute; reflexivity))).
    + vm_compute. reflexivity.
Defined.

Lemma JSON_validates_once_run :
  gjson_ValidBytes (list_byte_of_string jsonAB) = true
  ∧ (validations
       (concat (trace <$> JSON_calls [["a"]; []; ["b"]; ["c"]] okResponse))
     ≤ 1)%nat.
Proof.
  split; [vm_compute; reflexivity|].
  exact (JSON_validates_once (JL := json) "http://host/data"
           (BodyString jsonAB) (list_byte_of_string jsonAB)
           [["a"]; []; ["b"]; ["c"]]
           eq_refl ltac:(vm_compute; reflexivity)).
Defined.

Lemma navigation_ignores_JSON_run :
  SubmitForm [] (after (JSON ["x"] (pageAt "http://host/form" postPage)))
  = SubmitForm [] (pageAt "http://host/form" postPage)
  ∧ ClickLink [] (after (JSON [] (pageAt "http://host/a/b" linkPage)))
    = ClickLink [] (pageAt "http://host/a/b" linkPage).
Proof.
  split.
  - exact (proj1 (proj2
             (navigation_ignores_JSON (JL := json) (HE := engine)
                (GL := GoURL.lib) (IS := issuer)
                (pageAt "http://host/form" postPage) _
                (reach_JSON _ ["x"] _ (reach_start _)))) []).
  - exact (proj2 (proj2
             (navigation_ignores_JSON (JL := json) (HE := engine)
                (GL := GoURL.lib) (IS := issuer)
                (pageAt "http://host/a/b" linkPage) _
                (reach_JSON _ [] _ (reach_start _)))) []).
Defined.

Lemma submitFormArgs_by_keys_run :
  ToObject (jsObject busyOptions) = Ok busyOptions
  ∧ submitFormArgs [jsObject busyOptions; jsNull]
    = Return (mkSubmitFormOptions "form[method]" "button" ∅ (jsString "p")).
Proof.
  split; [reflexivity|].
  etransitivity.
  - exact (submitFormArgs_by_keys (RT := runtime) (jsObject busyOptions)
             [jsNull] busyOptions eq_refl).
  - vm_compute. reflexivity.
Defined.

Lemma clickLinkArgs_by_keys_run :
  clickLinkArgs linkOptions
  = Return (mkClickLinkOptions "a" (jsString "p")).
Proof.
  etransitivity.
  - exact (clickLinkArgs_by_keys (RT := runtime)
             (jsObject [("params", jsString "p"); ("selector", jsString "a")])
             [jsString "ignored"] _ eq_refl).
  - vm_compute. reflexivity.
Defined.

Lemma SubmitForm_returns_run :
  SubmitForm [] (pageAt "http://host/form" postPage)
  = Return (mkRequest "POST" (jsString "http://host/submit")
              (jsObject [("go", jsString "Go"); ("x", jsString "1")])
              jsNull)
  ∧ ∃ form base,
      HTML ["form"] (pageAt "http://host/form" postPage) = Return form
      ∧ Selection_Size form ≠ 0
      ∧ url_Parse "http://host/form" = Ok base.
Proof.
  assert (Hrun : SubmitForm [] (pageAt "http://host/form" postPage)
                 = Return (mkRequest "POST" (jsString "http://host/submit")
                             (jsObject [("go", jsString "Go");
                                        ("x", jsString "1")])
                             jsNull))
    by (vm_compute; reflexivity).
  split; [exact Hrun|].
  destruct (SubmitForm_returns (HE := engine) (GL := GoURL.lib)
              (IS := issuer) [] _ _ Hrun)
    as (o & form & base & target & Ho & _ & Hform & Hsize & Hbase & _).
  injection Ho as <-. exists form, base.
  split; [exact Hform|]. split; [exact Hsize | exact Hbase].
Defined.

Lemma ClickLink_returns_run :
  ClickLink linkOptions (pageAt "http://host/a/b" linkPage)
  = Return (mkRequest "GET" (jsString "http://host/c") jsUndefined
              (jsString "p"))
  ∧ ∃ link,
      HTML ["a"] (pageAt "http://host/a/b" linkPage) = Return link
      ∧ Selection_Attr link "href" ≠ Undefined.
Proof.
  assert (Hrun : ClickLink linkOptions (pageAt "http://host/a/b" linkPage)
                 = Return (mkRequest "GET" (jsString "http://host/c")
                             jsUndefined (jsString "p")))
    by (vm_compute; reflexivity).
  split; [exact Hrun|].
  destruct (ClickLink_returns (HE := engine) (GL := GoURL.lib)
              (IS := issuer) _ _ _ Hrun)
    as (o & base & link & hrefURL & Ho & _ & _ & Hlink & _ & Hhref & _).
  injection Ho as <-. exists link.
  split; [exact Hlink | exact Hhref].
Defined.

Lemma SubmitForm_early_errors_run :
  SubmitForm [jsNull] (pageAt "http://host/form" postPage)
  = Throw (foreignError "goja"
             "TypeError: Cannot convert undefined or null to object")
  ∧ SubmitForm [] (newResponse ":" (BodyOther "int")) = Throw InvalidBodyType
  ∧ SubmitForm (HE := strictEngine) []
      (newResponse ":" (BodyString "<html>"))
    = Throw (foreignError "html" "unknown markup").
Proof.
  split; [|split].
  - exact (proj1 (SubmitForm_early_errors (HE := engine) (GL := GoURL.lib)
                    (IS := issuer) [jsNull]
                    (pageAt "http://host/form" postPage))
             jsNull [] _ eq_refl eq_refl).
  - exact (proj1 (proj2 (SubmitForm_early_errors (HE := engine)
                           (GL := GoURL.lib) (IS := issuer) []
                           (newResponse ":" (BodyOther "int"))))
             submitFormDefaults eq_refl eq_refl).
  - exact (proj2 (proj2 (SubmitForm_early_errors (HE := strictEngine)
                           (GL := GoURL.lib) (IS := issuer) []
                           (newResponse ":" (BodyString "<html>"))))
             submitFormDefaults "<html>" _ eq_refl eq_refl
             ltac:(vm_compute; reflexivity)).
Defined.

Lemma ClickLink_error_order_run :
  ClickLink [] (newResponse ":" (BodyOther "int"))
  = Throw (foreignError "net/url" "missing protocol scheme")
  ∧ ClickLink [] (newResponse "http://host/" (BodyOther "int"))
    = Throw InvalidBodyType
  ∧ ClickLink (HE := strictEngine) []
      (pageAt "http://host/" badHrefPage)
    = Throw (foreignError "net/url" "missing protocol scheme").
Proof.
  split; [|split].
  - exact (proj1 (proj2 (ClickLink_error_order (HE := engine)
                           (GL := GoURL.lib) (IS := issuer) []
                           (newResponse ":" (BodyOther "int"))))
             clickLinkDefaults _ eq_refl ltac:(vm_compute; reflexivity)).
  - exact (proj1 (proj2 (proj2 (ClickLink_error_order (HE := engine)
                           (GL := GoURL.lib) (IS := issuer) []
                           (newResponse "http://host/" (BodyOther "int")))))
             clickLinkDefaults _ eq_refl ltac:(vm_compute; reflexivity)
             eq_refl).
  - refine (proj2 (proj2 (proj2 (proj2 (ClickLink_error_order
                           (HE := strictEngine) (GL := GoURL.lib)
                           (IS := issuer) []
                           (pageAt "http://host/" badHrefPage)))))
             clickLinkDefaults _ _ _ eq_refl
             ltac:(vm_compute; reflexivity)
             ltac:(vm_compute; reflexivity) _ _ _).
    + vm_compute. discriminate.
    + vm_compute. discriminate.
    + vm_compute. reflexivity.
Defined.

Lemma SubmitForm_field_precedence_run :
  submitFormArgs overrideX
  = Return (mkSubmitFormOptions "form"
              ("[type=" ++ quote ++ "submit" ++ quote ++ "]")
              {["x" := jsString "9"]} jsNull)
  ∧ (∃ form, HTML ["form"] (pageAt "http://host/form" postPage)
             = Return form
             ∧ Selection_SerializeObject form = {["x" := jsString "1"]}
             ∧ Selection_Attr
                 (Selection_Find form
                    ("[type=" ++ quote ++ "submit" ++ quote ++ "]")) "name"
               = jsString "go")
  ∧ SubmitForm overrideX (pageAt "http://host/form" postPage)
    = Return (mkRequest "POST" (jsString "http://host/submit")
                (jsObject [("go", jsString "Go"); ("x", jsString "9")])
                jsNull).
Proof.
  split; [vm_compute; reflexivity|].
  split.
  { eexists. split; [vm_compute; reflexivity|].
    split; vm_compute; reflexivity. }
  etransitivity.
  - refine (proj2 (proj2 (proj2
              (SubmitForm_field_precedence (HE := engine) (GL := GoURL.lib)
                 (IS := issuer) overrideX
                 (pageAt "http://host/form" postPage)
                 (mkSubmitFormOptions "form"
                    ("[type=" ++ quote ++ "submit" ++ quote ++ "]")
                    {["x" := jsString "9"]} jsNull)
                 _ _ _
                 ltac:(vm_compute; reflexivity)
                 ltac:(vm_compute; reflexivity) _
                 ltac:(vm_compute; reflexivity)
                 ltac:(vm_compute; reflexivity))))).
    vm_compute. discriminate.
  - vm_compute. reflexivity.
Defined.

End RunsMore.
